(** * Water stress scoring: [calculateWaterStressIndex] and [getSeverityLevel]

    A shallow embedding of the two scoring methods of the class
    [LiveWaterMonitor] in [src/live-water-monitor.js], and the properties of
    the water-stress specification that concern them.

    JavaScript numbers are IEEE-754 binary64 values.  Two embeddings of the
    same source text are given:

    - at top level, an _idealised_ number type [number]: the special values
      [NaN], [+Infinity], [-Infinity] of JavaScript, and the finite values as
      mathematical reals.  Arithmetic on finite values is exact (no rounding,
      no overflow, one unsigned zero that divides like [+0]); arithmetic on
      special values follows ECMAScript.  The universally quantified
      properties are proved on this embedding, over the reals as the
      specification states them.  It departs from the program where a rounded
      value falls on the other side of a threshold and where a product
      overflows (a population above about 1.8e302): the properties stated on
      it are those that rounding and overflow leave true, with the bounds they
      need as hypotheses.

    - in [Module Float64], the same source text over Rocq's primitive
      binary64 floats.  It is executable, and the concrete scenarios of the
      specification are evaluated on it bit for bit.  What depends on the
      arithmetic itself, the agreement with the reference formula, is stated
      and proved on this embedding, against [Module Float64Spec], the
      reference formula in the same arithmetic.

    [Module WMS] embeds the rest of the class over the idealised numbers: the
    summaries of the two fetchers, [fetchCityData], the store and the display
    updates. *)

From Stdlib Require Import Reals Lra Bool ZArith String.
From Stdlib Require PrimFloat Floats.
From Stdlib Require Import List Permutation Sorted PeanoNat Lia.

Local Open Scope R_scope.

(** ** Idealised JavaScript numbers *)

Inductive number : Type :=
| NaN
| PInf
| NInf
| Fin (r : R).

Inductive sign : Type := Neg | Zero | Pos.

Definition sign_of (r : R) : sign :=
  if Rlt_dec 0 r then Pos else if Rlt_dec r 0 then Neg else Zero.

(** [a + b] *)
Definition num_add (a b : number) : number :=
  match a, b with
  | Fin x, Fin y => Fin (x + y)
  | NaN, _ | _, NaN => NaN
  | PInf, NInf | NInf, PInf => NaN
  | PInf, _ | _, PInf => PInf
  | NInf, _ | _, NInf => NInf
  end.

(** [a - b] *)
Definition num_sub (a b : number) : number :=
  match a, b with
  | Fin x, Fin y => Fin (x - y)
  | NaN, _ | _, NaN => NaN
  | PInf, PInf | NInf, NInf => NaN
  | PInf, _ | _, NInf => PInf
  | NInf, _ | _, PInf => NInf
  end.

(** [a * b]: an infinity times zero is [NaN]. *)
Definition num_mul (a b : number) : number :=
  match a, b with
  | Fin x, Fin y => Fin (x * y)
  | NaN, _ | _, NaN => NaN
  | PInf, PInf | NInf, NInf => PInf
  | PInf, NInf | NInf, PInf => NInf
  | PInf, Fin y | Fin y, PInf =>
      match sign_of y with Pos => PInf | Neg => NInf | Zero => NaN end
  | NInf, Fin y | Fin y, NInf =>
      match sign_of y with Pos => NInf | Neg => PInf | Zero => NaN end
  end.

(** [a / b]: division never throws.  A non-zero finite value over zero is an
    infinity with the sign of the dividend, zero over zero is [NaN]. *)
Definition num_div (a b : number) : number :=
  match a, b with
  | Fin x, Fin y =>
      match sign_of y with
      | Zero => match sign_of x with Pos => PInf | Neg => NInf | Zero => NaN end
      | _ => Fin (x / y)
      end
  | NaN, _ | _, NaN => NaN
  | Fin _, (PInf | NInf) => Fin 0
  | (PInf | NInf), (PInf | NInf) => NaN
  | PInf, Fin y => match sign_of y with Neg => NInf | _ => PInf end
  | NInf, Fin y => match sign_of y with Neg => PInf | _ => NInf end
  end.

(** [a < b]: every comparison with [NaN] is false. *)
Definition num_lt (a b : number) : bool :=
  match a, b with
  | Fin x, Fin y => if Rlt_dec x y then true else false
  | NaN, _ | _, NaN => false
  | _, NInf => false
  | NInf, _ => true
  | PInf, _ => false
  | Fin _, PInf => true
  end.

(** [a > b] *)
Definition num_gt (a b : number) : bool := num_lt b a.

(** [a >= b] *)
Definition num_ge (a b : number) : bool :=
  match a, b with
  | Fin x, Fin y => if Rle_dec y x then true else false
  | NaN, _ | _, NaN => false
  | _, NInf => true
  | NInf, _ => false
  | PInf, _ => true
  | Fin _, PInf => false
  end.

Declare Scope js_scope.
Delimit Scope js_scope with js.
Bind Scope js_scope with number.
Infix "+" := num_add : js_scope.
Infix "-" := num_sub : js_scope.
Infix "*" := num_mul : js_scope.
Infix "/" := num_div : js_scope.
Infix "<?" := num_lt (at level 70, no associativity) : js_scope.
Infix ">?" := num_gt (at level 70, no associativity) : js_scope.
Infix ">=?" := num_ge (at level 70, no associativity) : js_scope.

(** [Math.abs] *)
Definition Math_abs (x : number) : number :=
  match x with
  | NaN => NaN
  | PInf | NInf => PInf
  | Fin r => Fin (Rabs r)
  end.

(** [Math.sqrt]: [NaN] below zero. *)
Definition Math_sqrt (x : number) : number :=
  match x with
  | NaN | NInf => NaN
  | PInf => PInf
  | Fin r => if Rlt_dec r 0 then NaN else Fin (sqrt r)
  end.

(** [Math.max] and [Math.min] of two arguments: [NaN] when either is. *)
Definition Math_max (a b : number) : number :=
  match a, b with
  | Fin x, Fin y => Fin (Rmax x y)
  | NaN, _ | _, NaN => NaN
  | PInf, _ | _, PInf => PInf
  | NInf, y => y
  | x, NInf => x
  end.

Definition Math_min (a b : number) : number :=
  match a, b with
  | Fin x, Fin y => Fin (Rmin x y)
  | NaN, _ | _, NaN => NaN
  | NInf, _ | _, NInf => NInf
  | PInf, y => y
  | x, PInf => x
  end.

Definition is_int (r : R) : bool :=
  if Req_dec_T r (IZR (Int_part r)) then true else false.

Definition is_odd_int (r : R) : bool := is_int r && Z.odd (Int_part r).

(** [Math.pow(base, exponent)], by the cases of ECMAScript's
    Number::exponentiate.  With one unsigned zero, the results that would be
    [-0] are [0], and a zero base behaves as [+0]. *)
Definition Math_pow (base exponent : number) : number :=
  match exponent with
  | NaN => NaN
  | PInf =>
      match base with
      | NaN => NaN
      | PInf | NInf => PInf
      | Fin b =>
          if Rlt_dec 1 (Rabs b) then PInf
          else if Rlt_dec (Rabs b) 1 then Fin 0 else NaN
      end
  | NInf =>
      match base with
      | NaN => NaN
      | PInf | NInf => Fin 0
      | Fin b =>
          if Rlt_dec 1 (Rabs b) then Fin 0
          else if Rlt_dec (Rabs b) 1 then PInf else NaN
      end
  | Fin e =>
      match sign_of e with
      | Zero => Fin 1
      | Pos =>
          match base with
          | NaN => NaN
          | PInf => PInf
          | NInf => if is_odd_int e then NInf else PInf
          | Fin b =>
              match sign_of b with
              | Zero => Fin 0
              | Pos => Fin (Rpower b e)
              | Neg => if is_int e then Fin (powerRZ b (Int_part e)) else NaN
              end
          end
      | Neg =>
          match base with
          | NaN => NaN
          | PInf | NInf => Fin 0
          | Fin b =>
              match sign_of b with
              | Zero => PInf
              | Pos => Fin (Rpower b e)
              | Neg => if is_int e then Fin (powerRZ b (Int_part e)) else NaN
              end
          end
      end
  end.

(** ** The source, statement by statement *)

Section Scoring.

Local Open Scope js_scope.

(** [const potentialEvapotranspiration =
       0.0023 * (temperature + 17.8) * Math.sqrt(Math.abs(25 - temperature)) * 5;] *)
Definition potentialEvapotranspiration (temperature : number) : number :=
  Fin 0.0023 * (temperature + Fin 17.8)
  * Math_sqrt (Math_abs (Fin 25 - temperature)) * Fin 5.

(** [const aridityIndex =
       precipitation > 0 ? precipitation / potentialEvapotranspiration : 0;] *)
Definition aridityIndex (precipitation temperature : number) : number :=
  if precipitation >? Fin 0
  then precipitation / potentialEvapotranspiration temperature
  else Fin 0.

(** [const areaKm2 = Math.pow(population * 10, 0.5);] *)
Definition areaKm2 (population : number) : number :=
  Math_pow (population * Fin 10) (Fin 0.5).

(** [const waterAvailable = precipitation * areaKm2 * 1000;] *)
Definition waterAvailable (precipitation population : number) : number :=
  precipitation * areaKm2 population * Fin 1000.

(** [const perCapitaWater = waterAvailable / (population * 1000000);] *)
Definition perCapitaWater (precipitation population : number) : number :=
  waterAvailable precipitation population / (population * Fin 1000000).

(** [const tempStress = Math.max(0, Math.min(100, (temperature - 15) * 3));] *)
Definition tempStress (temperature : number) : number :=
  Math_max (Fin 0) (Math_min (Fin 100) ((temperature - Fin 15) * Fin 3)).

(** [const humidityFactor = Math.max(0, Math.min(100, (60 - humidity) * 2));] *)
Definition humidityFactor (humidity : number) : number :=
  Math_max (Fin 0) (Math_min (Fin 100) ((Fin 60 - humidity) * Fin 2)).

(** The aridity [if / else if] chain, as the update it makes to
    [stressIndex]; no branch taken leaves it unchanged. *)
Definition aridityStep (aridityIndex stressIndex : number) : number :=
  if aridityIndex <? Fin 0.05 then stressIndex + Fin 40
  else if aridityIndex <? Fin 0.2 then stressIndex + Fin 30
  else if aridityIndex <? Fin 0.5 then stressIndex + Fin 20
  else if aridityIndex <? Fin 0.65 then stressIndex + Fin 10
  else stressIndex.

(** The per-capita [if / else if] chain. *)
Definition perCapitaStep (perCapitaWater stressIndex : number) : number :=
  if perCapitaWater <? Fin 500 then stressIndex + Fin 30
  else if perCapitaWater <? Fin 1000 then stressIndex + Fin 20
  else if perCapitaWater <? Fin 1700 then stressIndex + Fin 10
  else stressIndex.

(** [stressIndex += tempStress * 0.2;] *)
Definition tempStep (tempStress stressIndex : number) : number :=
  stressIndex + tempStress * Fin 0.2.

(** [stressIndex += humidityFactor * 0.1;] *)
Definition humidityStep (humidityFactor stressIndex : number) : number :=
  stressIndex + humidityFactor * Fin 0.1.

(** The value of [stressIndex] when the [return] statement is reached. *)
Definition stressIndexBeforeClamp
  (precipitation temperature humidity population : number) : number :=
  let aridityIndex := aridityIndex precipitation temperature in
  let perCapitaWater := perCapitaWater precipitation population in
  let tempStress := tempStress temperature in
  let humidityFactor := humidityFactor humidity in
  let stressIndex := Fin 0 in
  let stressIndex := aridityStep aridityIndex stressIndex in
  let stressIndex := perCapitaStep perCapitaWater stressIndex in
  let stressIndex := tempStep tempStress stressIndex in
  let stressIndex := humidityStep humidityFactor stressIndex in
  stressIndex.

(** [calculateWaterStressIndex(precipitation, temperature, humidity, population)]:
    [return Math.min(100, Math.max(0, stressIndex));] *)
Definition calculateWaterStressIndex
  (precipitation temperature humidity population : number) : number :=
  let stressIndex :=
    stressIndexBeforeClamp precipitation temperature humidity population in
  Math_min (Fin 100) (Math_max (Fin 0) stressIndex).

(** The object literal [{ level: ..., color: ... }]. *)
Record severity : Type := { level : string; color : string }.

(** [getSeverityLevel(stressIndex)] *)
Definition getSeverityLevel (stressIndex : number) : severity :=
  if stressIndex >=? Fin 80 then {| level := "critical"; color := "#ff0040" |}
  else if stressIndex >=? Fin 60 then {| level := "severe"; color := "#ff6b35" |}
  else if stressIndex >=? Fin 40 then {| level := "warning"; color := "#ffa500" |}
  else if stressIndex >=? Fin 20 then {| level := "moderate"; color := "#ffdd00" |}
  else {| level := "low"; color := "#00d084" |}.

End Scoring.

(** ** The same source over binary64 floats *)

Module Float64.

Import PrimFloat.
Local Open Scope float_scope.
#[local] Set Warnings "-inexact-float".

Definition is_nan (x : float) : bool := negb (x =? x).

Definition is_infinite (x : float) : bool := abs x =? infinity.

(** [Math.max] and [Math.min] of two arguments: [NaN] when either is, and
    [-0] below [+0]. *)
Definition Math_max (a b : float) : float :=
  if is_nan a || is_nan b then nan
  else if a <? b then b
  else if b <? a then a
  else if a =? 0 then a + b
  else a.

Definition Math_min (a b : float) : float :=
  if is_nan a || is_nan b then nan
  else if a <? b then a
  else if b <? a then b
  else if a =? 0 then - (- a + - b)
  else a.

(** [Math.pow(x, 0.5)], the one call of [Math.pow] in the source: the
    correctly rounded square root, except that [-0] gives [+0] and
    [-Infinity] gives [+Infinity]. *)
Definition Math_pow_0_5 (x : float) : float :=
  if is_nan x then nan
  else if is_infinite x then infinity
  else sqrt (x + 0).

Definition potentialEvapotranspiration (temperature : float) : float :=
  0.0023 * (temperature + 17.8) * sqrt (abs (25 - temperature)) * 5.

Definition aridityIndex (precipitation temperature : float) : float :=
  if 0 <? precipitation
  then precipitation / potentialEvapotranspiration temperature
  else 0.

Definition areaKm2 (population : float) : float :=
  Math_pow_0_5 (population * 10).

Definition waterAvailable (precipitation population : float) : float :=
  precipitation * areaKm2 population * 1000.

Definition perCapitaWater (precipitation population : float) : float :=
  waterAvailable precipitation population / (population * 1000000).

Definition tempStress (temperature : float) : float :=
  Math_max 0 (Math_min 100 ((temperature - 15) * 3)).

Definition humidityFactor (humidity : float) : float :=
  Math_max 0 (Math_min 100 ((60 - humidity) * 2)).

Definition aridityStep (aridityIndex stressIndex : float) : float :=
  if aridityIndex <? 0.05 then stressIndex + 40
  else if aridityIndex <? 0.2 then stressIndex + 30
  else if aridityIndex <? 0.5 then stressIndex + 20
  else if aridityIndex <? 0.65 then stressIndex + 10
  else stressIndex.

Definition perCapitaStep (perCapitaWater stressIndex : float) : float :=
  if perCapitaWater <? 500 then stressIndex + 30
  else if perCapitaWater <? 1000 then stressIndex + 20
  else if perCapitaWater <? 1700 then stressIndex + 10
  else stressIndex.

Definition tempStep (tempStress stressIndex : float) : float :=
  stressIndex + tempStress * 0.2.

Definition humidityStep (humidityFactor stressIndex : float) : float :=
  stressIndex + humidityFactor * 0.1.

Definition stressIndexBeforeClamp
  (precipitation temperature humidity population : float) : float :=
  let aridityIndex := aridityIndex precipitation temperature in
  let perCapitaWater := perCapitaWater precipitation population in
  let tempStress := tempStress temperature in
  let humidityFactor := humidityFactor humidity in
  let stressIndex := 0 in
  let stressIndex := aridityStep aridityIndex stressIndex in
  let stressIndex := perCapitaStep perCapitaWater stressIndex in
  let stressIndex := tempStep tempStress stressIndex in
  let stressIndex := humidityStep humidityFactor stressIndex in
  stressIndex.

Definition calculateWaterStressIndex
  (precipitation temperature humidity population : float) : float :=
  let stressIndex :=
    stressIndexBeforeClamp precipitation temperature humidity population in
  Math_min 100 (Math_max 0 stressIndex).

Definition getSeverityLevel (stressIndex : float) : severity :=
  if 80 <=? stressIndex then {| level := "critical"; color := "#ff0040" |}
  else if 60 <=? stressIndex then {| level := "severe"; color := "#ff6b35" |}
  else if 40 <=? stressIndex then {| level := "warning"; color := "#ffa500" |}
  else if 20 <=? stressIndex then {| level := "moderate"; color := "#ffdd00" |}
  else {| level := "low"; color := "#00d084" |}.

End Float64.

(** ** The reference formula of the specification, over the reals *)

Module Spec.

(** [clamp(x, lo, hi)] *)
Definition clamp (x lo hi : R) : R := Rmax lo (Rmin hi x).

(** [PET = 0.0023 * (T + 17.8) * sqrt(|25 - T|) * 5] *)
Definition PET (T : R) : R := 0.0023 * (T + 17.8) * sqrt (Rabs (25 - T)) * 5.

(** [AI < 0.05 -> 40; AI < 0.20 -> 30; AI < 0.50 -> 20; AI < 0.65 -> 10;
    otherwise 0] *)
Definition aridity_of_ratio (AI : R) : R :=
  if Rlt_dec AI 0.05 then 40
  else if Rlt_dec AI 0.20 then 30
  else if Rlt_dec AI 0.50 then 20
  else if Rlt_dec AI 0.65 then 10
  else 0.

(** The aridity contribution: [AI = precipitation / PET] when
    [precipitation > 0], else [AI = 0]; a zero [PET] under positive
    precipitation is the wet end, contribution 0. *)
Definition aridity (P T : R) : R :=
  if Rlt_dec 0 P then
    if Req_dec_T (PET T) 0 then 0 else aridity_of_ratio (P / PET T)
  else aridity_of_ratio 0.

(** [waterVolume / (populationMillions * 1_000_000)] with
    [waterVolume = precipitation * area_km2 * 1000] and
    [area_km2 = sqrt(populationMillions * 10)] *)
Definition per_capita_availability (P pop : R) : R :=
  (P * sqrt (pop * 10) * 1000) / (pop * 1000000).

(** [< 500 -> 30; < 1000 -> 20; < 1700 -> 10; otherwise 0] *)
Definition per_capita (P pop : R) : R :=
  let a := per_capita_availability P pop in
  if Rlt_dec a 500 then 30
  else if Rlt_dec a 1000 then 20
  else if Rlt_dec a 1700 then 10
  else 0.

(** [clamp((T - 15) * 3, 0, 100) * 0.2] *)
Definition temperature_stress (T : R) : R := clamp ((T - 15) * 3) 0 100 * 0.2.

(** [clamp((60 - H) * 2, 0, 100) * 0.1] *)
Definition humidity (H : R) : R := clamp ((60 - H) * 2) 0 100 * 0.1.

(** The sum of the four contributions, clamped to [[0, 100]]. *)
Definition index (P T H pop : R) : R :=
  clamp (aridity P T + per_capita P pop + temperature_stress T + humidity H)
    0 100.

End Spec.

(** ** The reference formula in binary64

    The same formula with each operation carried out in binary64, in the
    order the specification writes them.  The ratio [precipitation / PET] is
    the IEEE quotient: over a zero [PET] it is an infinity, the very large
    ratio of the specification. *)

Module Float64Spec.

Import PrimFloat.
Local Open Scope float_scope.
#[local] Set Warnings "-inexact-float".

(** [clamp(x, lo, hi)] *)
Definition clamp (x lo hi : float) : float :=
  Float64.Math_max lo (Float64.Math_min hi x).

(** [PET = 0.0023 * (T + 17.8) * sqrt(|25 - T|) * 5] *)
Definition PET (T : float) : float :=
  0.0023 * (T + 17.8) * sqrt (abs (25 - T)) * 5.

(** [AI = precipitation / PET] when [precipitation > 0], else [AI = 0] *)
Definition AI (P T : float) : float := if 0 <? P then P / PET T else 0.

Definition aridity (P T : float) : float :=
  let AI := AI P T in
  if AI <? 0.05 then 40
  else if AI <? 0.20 then 30
  else if AI <? 0.50 then 20
  else if AI <? 0.65 then 10
  else 0.

(** [area_km2 = sqrt(populationMillions * 10)] *)
Definition area_km2 (pop : float) : float := sqrt (pop * 10).

(** [waterVolume = precipitation * area_km2 * 1000] *)
Definition waterVolume (P pop : float) : float := P * area_km2 pop * 1000.

(** [waterVolume / (populationMillions * 1_000_000)] *)
Definition per_capita_availability (P pop : float) : float :=
  waterVolume P pop / (pop * 1000000).

Definition per_capita (P pop : float) : float :=
  let a := per_capita_availability P pop in
  if a <? 500 then 30
  else if a <? 1000 then 20
  else if a <? 1700 then 10
  else 0.

Definition temperature_stress (T : float) : float :=
  clamp ((T - 15) * 3) 0 100 * 0.2.

Definition humidity (H : float) : float := clamp ((60 - H) * 2) 0 100 * 0.1.

Definition index (P T H pop : float) : float :=
  clamp (aridity P T + per_capita P pop + temperature_stress T + humidity H)
    0 100.

End Float64Spec.

(** The populations of [this.cities], as the binary64 values the program
    holds. *)
Module Float64Cities.

Import PrimFloat.
Local Open Scope float_scope.
#[local] Set Warnings "-inexact-float".

Definition populations : list float :=
  (11.0 :: 4.6 :: 22.4 :: 22.0 :: 10.6 :: 32.0 :: 21.5 :: 15.5 :: 37.4
    :: 20.5 :: 15.0 :: 16.0 :: 22.5 :: 13.9 :: 13.0 :: 5.0 :: 5.7 :: 3.3
    :: 10.7 :: 12.3 :: nil)%list.

End Float64Cities.

(** The exact value of a binary64 number, as an idealised number. *)
Definition float_value (x : PrimFloat.float) : number :=
  match FloatOps.Prim2SF x with
  | SpecFloat.S754_nan => NaN
  | SpecFloat.S754_infinity s => if s then NInf else PInf
  | SpecFloat.S754_zero _ => Fin 0
  | SpecFloat.S754_finite s m e =>
      let magnitude :=
        match e with
        | Zneg k => IZR (Zpos m) / IZR (Z.pow_pos 2 k)
        | _ => IZR (Zpos m * 2 ^ e)
        end in
      Fin (if s then - magnitude else magnitude)
  end.

(** A binary64 number that is [NaN] or does not have the sign bit set. *)
Definition nonneg_or_nan (y : SpecFloat.spec_float) : Prop :=
  match y with
  | SpecFloat.S754_nan => True
  | SpecFloat.S754_zero s
  | SpecFloat.S754_infinity s
  | SpecFloat.S754_finite s _ _ => s = false
  end.

(** ** Contributions read off the two threshold chains *)

(** What the aridity chain adds to [stressIndex]. *)
Definition aridityPoints (aridityIndex : number) : R :=
  if num_lt aridityIndex (Fin 0.05) then 40
  else if num_lt aridityIndex (Fin 0.2) then 30
  else if num_lt aridityIndex (Fin 0.5) then 20
  else if num_lt aridityIndex (Fin 0.65) then 10
  else 0.

(** What the per-capita chain adds to [stressIndex]. *)
Definition perCapitaPoints (perCapitaWater : number) : R :=
  if num_lt perCapitaWater (Fin 500) then 30
  else if num_lt perCapitaWater (Fin 1000) then 20
  else if num_lt perCapitaWater (Fin 1700) then 10
  else 0.

(** ** The rest of the class [WaterMonitoringSystem]

    The data path around the two scoring methods: the summaries the two
    fetchers build from a parsed response, [fetchCityData], the store
    [currentData] and the four display updates.  What a network call returned
    and what the clock read are arguments; the page is reduced to the values
    written to it. *)

(** [a !== b] on numbers: [NaN] differs from everything. *)
Definition num_strict_neq (a b : number) : bool :=
  match a, b with
  | Fin x, Fin y => if Req_dec_T x y then false else true
  | PInf, PInf | NInf, NInf => false
  | _, _ => true
  end.

(** The integer [n] for which [n - x] is closest to zero, the larger one
    when two are equally close. *)
Definition nearest_int (x : R) : Z := Int_part (x + / 2).

(** The number [parseFloat] reads from the string [x.toFixed(fractionDigits)].
    [toFixed] prints ["NaN"] and the infinities as such, a magnitude of
    [10^21] or more as [String(x)], and otherwise the sign followed by
    [n / 10^fractionDigits] in decimal notation, for the integer [n] nearest
    to the magnitude times [10^fractionDigits]. *)
Definition toFixed_value (x : number) (fractionDigits : nat) : number :=
  match x with
  | Fin r =>
      if Rle_dec (10 ^ 21) (Rabs r) then Fin r
      else
        let n := nearest_int (Rabs r * 10 ^ fractionDigits) in
        if Rlt_dec r 0 then Fin (- (IZR n / 10 ^ fractionDigits))
        else Fin (IZR n / 10 ^ fractionDigits)
  | _ => x
  end.

(** [x || 0] on numbers: [0] and [NaN] are falsy. *)
Definition or_zero (x : number) : number :=
  match x with
  | NaN => Fin 0
  | Fin r => if Req_dec_T r 0 then Fin 0 else Fin r
  | _ => x
  end.

(** The test [v !== -999] on a finite value. *)
Definition not_sentinel (r : R) : bool :=
  if Req_dec_T r (-999) then false else true.

Module WMS.

Import ListNotations.
Local Open Scope list_scope.

(** An entry of [this.cities]. *)
Record city : Type :=
  { name : string; lat : R; lon : R; country : string; population : R }.

(** [this.cities], as the constructor sets it. *)
Definition cities : list city :=
  [ {| name := "Chennai"; lat := 13.0827; lon := 80.2707; country := "IN"; population := 11.0 |};
    {| name := "Cape Town"; lat := -33.9249; lon := 18.4241; country := "ZA"; population := 4.6 |};
    {| name := "São Paulo"; lat := -23.5505; lon := -46.6333; country := "BR"; population := 22.4 |};
    {| name := "Mexico City"; lat := 19.4326; lon := -99.1332; country := "MX"; population := 22.0 |};
    {| name := "Jakarta"; lat := -6.2088; lon := 106.8456; country := "ID"; population := 10.6 |};
    {| name := "Delhi"; lat := 28.6139; lon := 77.2090; country := "IN"; population := 32.0 |};
    {| name := "Beijing"; lat := 39.9042; lon := 116.4074; country := "CN"; population := 21.5 |};
    {| name := "Istanbul"; lat := 41.0082; lon := 28.9784; country := "TR"; population := 15.5 |};
    {| name := "Tokyo"; lat := 35.6762; lon := 139.6503; country := "JP"; population := 37.4 |};
    {| name := "Cairo"; lat := 30.0444; lon := 31.2357; country := "EG"; population := 20.5 |};
    {| name := "Lagos"; lat := 6.5244; lon := 3.3792; country := "NG"; population := 15.0 |};
    {| name := "Karachi"; lat := 24.8607; lon := 67.0011; country := "PK"; population := 16.0 |};
    {| name := "Dhaka"; lat := 23.8103; lon := 90.4125; country := "BD"; population := 22.5 |};
    {| name := "Manila"; lat := 14.5995; lon := 120.9842; country := "PH"; population := 13.9 |};
    {| name := "Los Angeles"; lat := 34.0522; lon := -118.2437; country := "US"; population := 13.0 |};
    {| name := "Phoenix"; lat := 33.4484; lon := -112.0740; country := "US"; population := 5.0 |};
    {| name := "Singapore"; lat := 1.3521; lon := 103.8198; country := "SG"; population := 5.7 |};
    {| name := "Dubai"; lat := 25.2048; lon := 55.2708; country := "AE"; population := 3.3 |};
    {| name := "Lima"; lat := -12.0464; lon := -77.0428; country := "PE"; population := 10.7 |};
    {| name := "Bangalore"; lat := 12.9716; lon := 77.5946; country := "IN"; population := 12.3 |} ].

(** A field of a reading: a number, or the string [x.toFixed(d)], kept as
    the call that printed it. *)
Inductive field : Type :=
| Num (x : number)
| Fixed (x : number) (fractionDigits : nat).

(** [parseFloat(v)] *)
Definition parseFloat (v : field) : number :=
  match v with
  | Num x => x
  | Fixed x d => toFixed_value x d
  end.

(** The object both fetchers return. *)
Record reading : Type :=
  { precipitation : field;
    temperature : field;
    humidity : field;
    source : string;
    timestamp : string }.

(** [array.reduce((a,b) => a+b, 0)] *)
Definition sum (values : list number) : number :=
  fold_left num_add values (Fin 0).

(** [array.filter(v => v !== -999)] *)
Definition valid (values : list number) : list number :=
  filter (fun v => num_strict_neq v (Fin (-999))) values.

(** [sum / array.length] *)
Definition average (values : list number) : number :=
  (sum values / Fin (INR (length values)))%js.

(** [valid.length ? (sum / valid.length).toFixed(d) : 0] *)
Definition averageOrZero (validValues : list number) (d : nat) : field :=
  match validValues with
  | [] => Num (Fin 0)
  | _ :: _ => Fixed (average validValues) d
  end.

(** [data.properties.parameter] of a NASA POWER response, each series as the
    list of its values; [None] is a missing series. *)
Record nasaParameter : Type :=
  { PRECTOTCORR : option (list number);
    T2M : option (list number);
    RH2M : option (list number) }.

(** [Object.values(series || {})] and [series || []] *)
Definition values_or_empty (series : option (list number)) : list number :=
  match series with Some l => l | None => [] end.

(** [fetchNASAPowerData(lat, lon)], from the parsed response on: [params] is
    [None] when the request failed, the response was not ok or it had no
    [properties.parameter]. *)
Definition fetchNASAPowerData
  (params : option nasaParameter) (now : string) : option reading :=
  match params with
  | Some params =>
      let precip := values_or_empty (PRECTOTCORR params) in
      let temp := values_or_empty (T2M params) in
      let humidity := values_or_empty (RH2M params) in
      let validPrecip := valid precip in
      let validTemp := valid temp in
      let validHumidity := valid humidity in
      Some {| precipitation := averageOrZero validPrecip 2;
              temperature := averageOrZero validTemp 1;
              humidity := averageOrZero validHumidity 1;
              source := "NASA POWER";
              timestamp := now |}
  | None => None
  end.

(** The part of an Open-Meteo response the fetcher reads: [data.daily]
    (absent: [None]) with its [precipitation_sum], and
    [data.current_weather?.temperature]. *)
Record openMeteoData : Type :=
  { daily : option (option (list number));
    current_temperature : option number }.

(** [fetchOpenMeteoData(lat, lon)], from the parsed response on. *)
Definition fetchOpenMeteoData
  (data : option openMeteoData) (now : string) : option reading :=
  match data with
  | Some data =>
      match daily data with
      | Some precipitation_sum =>
          let precip := values_or_empty precipitation_sum in
          let avgPrecip := average precip in
          Some {| precipitation := Fixed avgPrecip 2;
                  temperature :=
                    Num (match current_temperature data with
                         | Some t => or_zero t
                         | None => Fin 0
                         end);
                  humidity := Num (Fin 0);
                  source := "Open-Meteo";
                  timestamp := now |}
      | None => None
      end
  | None => None
  end.

(** What [fetchCityData] returns: the city's and the reading's fields,
    spread, and the four computed ones. *)
Record cityData : Type :=
  { cityOf : city;
    dataOf : reading;
    waterStress : field;
    severity : string;
    severityColor : string;
    lastUpdate : string }.

(** The index [fetchCityData] computes from a reading. *)
Definition stressIndexOf (c : city) (data : reading) : number :=
  calculateWaterStressIndex
    (parseFloat (precipitation data))
    (parseFloat (temperature data))
    (parseFloat (humidity data))
    (Fin (population c)).

(** [fetchCityData(city)]: the NASA reading, else the Open-Meteo one, else
    [null]. *)
Definition fetchCityData
  (c : city) (nasa openMeteo : option reading) (clock : string)
  : option cityData :=
  let data := match nasa with Some d => Some d | None => openMeteo end in
  match data with
  | Some data =>
      let stressIndex := stressIndexOf c data in
      let severity := getSeverityLevel stressIndex in
      Some {| cityOf := c;
              dataOf := data;
              waterStress := Fixed stressIndex 1;
              severity := level severity;
              severityColor := color severity;
              lastUpdate := clock |}
  | None => None
  end.

(** [this.currentData]: a [Map] from city names, in insertion order. *)
Definition Map : Type := list (string * cityData).

(** [map.set(key, value)]: a present key keeps its place. *)
Fixpoint Map_set (key : string) (value : cityData) (m : Map) : Map :=
  match m with
  | [] => [(key, value)]
  | (k, v) :: m' =>
      if String.eqb k key then (key, value) :: m'
      else (k, v) :: Map_set key value m'
  end.

(** [map.get(key)] *)
Fixpoint Map_get (key : string) (m : Map) : option cityData :=
  match m with
  | [] => None
  | (k, v) :: m' => if String.eqb k key then Some v else Map_get key m'
  end.

(** [Array.from(map.values())] and [map.size] *)
Definition Map_values (m : Map) : list cityData := map snd m.

Definition Map_keys (m : Map) : list string := map fst m.

Definition Map_size (m : Map) : nat := length m.

(** [updateAllCities()]: [fetched city] is what [fetchCityData(city)]
    resolved to in this round. *)
Definition updateAllCities
  (fetched : city -> option cityData) (cities : list city) (currentData : Map)
  : Map :=
  fold_left
    (fun currentData c =>
       match fetched c with
       | Some data => Map_set (name c) data currentData
       | None => currentData
       end)
    cities currentData.

(** The class the ticker dot gets. *)
Definition tickerDotClass (c : cityData) : string :=
  ("ticker-dot " ++
   (if String.eqb (severity c) "critical" then "critical"
    else if String.eqb (severity c) "severe" then "warning"
    else "normal"))%string.

(** [updateTicker()]: the city shown, if any, and the new [tickerIndex].
    [tickerElement] tells whether the element [ticker3] exists. *)
Definition updateTicker
  (tickerElement : bool) (currentData : Map) (tickerIndex : nat)
  : option cityData * nat :=
  if negb tickerElement then (None, tickerIndex)
  else
    let cities := Map_values currentData in
    match cities with
    | [] => (None, tickerIndex)
    | c0 :: _ =>
        let c := nth (tickerIndex mod length cities) cities c0 in
        (Some c, S tickerIndex)
    end.

(** The cities [calls] successive ticker updates show. *)
Fixpoint tickerRun (calls : nat) (currentData : Map) (tickerIndex : nat)
  : list cityData :=
  match calls with
  | O => []
  | S calls' =>
      let '(shown, tickerIndex') := updateTicker true currentData tickerIndex in
      match shown with
      | Some c => c :: tickerRun calls' currentData tickerIndex'
      | None => tickerRun calls' currentData tickerIndex'
      end
  end.

(** [updateMainStats()]: the numbers written to [globalCoverage] and
    [criticalZones]. *)
Definition updateMainStats (currentData : Map) : nat * nat :=
  let cities := Map_values currentData in
  let criticalCount :=
    length (filter (fun c => String.eqb (severity c) "critical") cities) in
  let severeCount :=
    length (filter (fun c => String.eqb (severity c) "severe") cities) in
  let totalMonitored := length cities in
  (totalMonitored, (criticalCount + severeCount)%nat).





(** [updateMap()]: the radius of a city's marker. *)
Definition markerRadius (c : cityData) : number :=
  (Fin 8 + parseFloat (waterStress c) / Fin 10)%js.

End WMS.



(** Sample inputs, used to instantiate the properties of the data path:
    the entry of Phoenix in [this.cities], a NASA reading without
    precipitation data at 31.6 degrees and 60 percent humidity, and what
    [fetchCityData] makes of the two. *)
Definition phoenix : WMS.city :=
  {| WMS.name := "Phoenix"; WMS.lat := 33.4484; WMS.lon := -112.0740;
     WMS.country := "US"; WMS.population := 5.0 |}.

Definition hot_dry_reading : WMS.reading :=
  {| WMS.precipitation := WMS.Num (Fin 0);
     WMS.temperature := WMS.Fixed (Fin 31.6) 1;
     WMS.humidity := WMS.Fixed (Fin 60) 1;
     WMS.source := "NASA POWER";
     WMS.timestamp := "2024-06-01T00:00:00.000Z" |}.

Definition phoenix_hot_dry : WMS.cityData :=
  {| WMS.cityOf := phoenix;
     WMS.dataOf := hot_dry_reading;
     WMS.waterStress := WMS.Fixed (WMS.stressIndexOf phoenix hot_dry_reading) 1;
     WMS.severity :=
       level (getSeverityLevel (WMS.stressIndexOf phoenix hot_dry_reading));
     WMS.severityColor :=
       color (getSeverityLevel (WMS.stressIndexOf phoenix hot_dry_reading));
     WMS.lastUpdate := "12:00:00 AM" |}.

(** ** Evaluation lemmas for the idealised numbers *)

Ltac decide_reals :=
  repeat match goal with
    | |- context [Rlt_dec ?a ?b] => destruct (Rlt_dec a b); try lra
    | |- context [Rle_dec ?a ?b] => destruct (Rle_dec a b); try lra
    | |- context [Req_dec_T ?a ?b] => destruct (Req_dec_T a b); try lra
    end.

Lemma sign_of_pos (r : R) : 0 < r -> sign_of r = Pos.
Proof. intros H; unfold sign_of; decide_reals; reflexivity. Qed.

Lemma sign_of_neg (r : R) : r < 0 -> sign_of r = Neg.
Proof. intros H; unfold sign_of; decide_reals; reflexivity. Qed.

Lemma sign_of_zero : sign_of 0 = Zero.
Proof. unfold sign_of; decide_reals; reflexivity. Qed.

Lemma num_lt_Fin_true (x y : R) : x < y -> num_lt (Fin x) (Fin y) = true.
Proof. intros H; cbn; decide_reals; reflexivity. Qed.

Lemma num_lt_Fin_false (x y : R) : y <= x -> num_lt (Fin x) (Fin y) = false.
Proof. intros H; cbn; decide_reals; reflexivity. Qed.

Lemma num_div_Fin (x y : R) : y <> 0 -> num_div (Fin x) (Fin y) = Fin (x / y).
Proof.
  intros H; cbn [num_div]; unfold sign_of; decide_reals; reflexivity.
Qed.

Lemma num_div_pos_zero (x : R) : 0 < x -> num_div (Fin x) (Fin 0) = PInf.
Proof.
  intros H; cbn [num_div]; rewrite sign_of_zero, (sign_of_pos x H); reflexivity.
Qed.

Lemma Math_sqrt_Fin (r : R) : 0 <= r -> Math_sqrt (Fin r) = Fin (sqrt r).
Proof. intros H; cbn [Math_sqrt]; decide_reals; reflexivity. Qed.

Lemma Math_pow_half (b : R) : 0 < b -> Math_pow (Fin b) (Fin 0.5) = Fin (sqrt b).
Proof.
  intros H; cbn [Math_pow].
  rewrite (sign_of_pos 0.5) by lra.
  rewrite (sign_of_pos b H).
  replace 0.5 with (/ 2) by lra.
  rewrite (Rpower_sqrt b H); reflexivity.
Qed.

Lemma potentialEvapotranspiration_Fin (t : R) :
  potentialEvapotranspiration (Fin t) = Fin (Spec.PET t).
Proof.
  unfold potentialEvapotranspiration, Spec.PET.
  cbn [num_add num_sub num_mul Math_abs].
  rewrite Math_sqrt_Fin by apply Rabs_pos.
  reflexivity.
Qed.

Lemma areaKm2_Fin (pop : R) : 0 < pop -> areaKm2 (Fin pop) = Fin (sqrt (pop * 10)).
Proof.
  intros H; unfold areaKm2; cbn [num_mul].
  apply Math_pow_half; lra.
Qed.

Lemma perCapitaWater_Fin (p pop : R) :
  0 < pop ->
  perCapitaWater (Fin p) (Fin pop) = Fin (Spec.per_capita_availability p pop).
Proof.
  intros H; unfold perCapitaWater, waterAvailable, Spec.per_capita_availability.
  rewrite (areaKm2_Fin pop H); cbn [num_mul].
  apply num_div_Fin; lra.
Qed.

Lemma tempStress_Fin (t : R) :
  tempStress (Fin t) = Fin (Spec.clamp ((t - 15) * 3) 0 100).
Proof. reflexivity. Qed.

Lemma humidityFactor_Fin (h : R) :
  humidityFactor (Fin h) = Fin (Spec.clamp ((60 - h) * 2) 0 100).
Proof. reflexivity. Qed.

Lemma clamp_range (x lo hi : R) :
  lo <= hi -> lo <= Spec.clamp x lo hi <= hi.
Proof.
  intros H; unfold Spec.clamp, Rmax, Rmin.
  destruct (Rle_dec hi x); destruct (Rle_dec lo _); lra.
Qed.

Lemma clamp_id (x lo hi : R) : lo <= x <= hi -> Spec.clamp x lo hi = x.
Proof.
  intros H; unfold Spec.clamp, Rmax, Rmin.
  destruct (Rle_dec hi x); destruct (Rle_dec lo _); lra.
Qed.

Lemma clamp_mono (x y lo hi : R) :
  lo <= hi -> x <= y -> Spec.clamp x lo hi <= Spec.clamp y lo hi.
Proof.
  intros Hb H; unfold Spec.clamp, Rmax, Rmin.
  destruct (Rle_dec hi x); destruct (Rle_dec hi y);
    repeat match goal with |- context [Rle_dec ?a ?b] => destruct (Rle_dec a b) end;
    lra.
Qed.

Lemma aridityStep_Fin (ai : number) (s : R) :
  aridityStep ai (Fin s) = Fin (s + aridityPoints ai).
Proof.
  unfold aridityStep, aridityPoints.
  repeat match goal with
    | |- context [num_lt ai ?c] => destruct (num_lt ai c); [reflexivity |]
    end.
  rewrite Rplus_0_r; reflexivity.
Qed.

Lemma perCapitaStep_Fin (pc : number) (s : R) :
  perCapitaStep pc (Fin s) = Fin (s + perCapitaPoints pc).
Proof.
  unfold perCapitaStep, perCapitaPoints.
  repeat match goal with
    | |- context [num_lt pc ?c] => destruct (num_lt pc c); [reflexivity |]
    end.
  rewrite Rplus_0_r; reflexivity.
Qed.

Lemma aridityPoints_range (ai : number) : 0 <= aridityPoints ai <= 40.
Proof.
  unfold aridityPoints.
  repeat match goal with
    | |- context [num_lt ai ?c] => destruct (num_lt ai c); [lra |]
    end.
  lra.
Qed.

Lemma perCapitaPoints_range (pc : number) : 0 <= perCapitaPoints pc <= 30.
Proof.
  unfold perCapitaPoints.
  repeat match goal with
    | |- context [num_lt pc ?c] => destruct (num_lt pc c); [lra |]
    end.
  lra.
Qed.

(** The value of [stressIndex] at the [return], for finite temperature and
    humidity and any precipitation and population: the threshold chains only
    compare, so no special value of theirs reaches the sum. *)
Lemma stressIndexBeforeClamp_Fin (p pop : number) (t h : R) :
  stressIndexBeforeClamp p (Fin t) (Fin h) pop
  = Fin (0 + aridityPoints (aridityIndex p (Fin t))
           + perCapitaPoints (perCapitaWater p pop)
           + Spec.clamp ((t - 15) * 3) 0 100 * 0.2
           + Spec.clamp ((60 - h) * 2) 0 100 * 0.1).
Proof.
  unfold stressIndexBeforeClamp; cbv zeta.
  rewrite aridityStep_Fin, perCapitaStep_Fin.
  reflexivity.
Qed.

Lemma stressIndexBeforeClamp_range (p pop : number) (t h r : R) :
  stressIndexBeforeClamp p (Fin t) (Fin h) pop = Fin r -> 0 <= r <= 100.
Proof.
  rewrite stressIndexBeforeClamp_Fin; intros E; injection E as <-.
  pose proof (aridityPoints_range (aridityIndex p (Fin t))).
  pose proof (perCapitaPoints_range (perCapitaWater p pop)).
  pose proof (clamp_range ((t - 15) * 3) 0 100 ltac:(lra)).
  pose proof (clamp_range ((60 - h) * 2) 0 100 ltac:(lra)).
  lra.
Qed.

(** The final [Math.min(100, Math.max(0, _))] nests the other way round from
    [clamp]; with [0 <= 100] the two agree. *)
Lemma min_max_clamp (s : R) : Rmin 100 (Rmax 0 s) = Spec.clamp s 0 100.
Proof.
  unfold Spec.clamp, Rmax, Rmin.
  destruct (Rle_dec 0 s); destruct (Rle_dec 100 s);
    repeat match goal with |- context [Rle_dec ?a ?b] => destruct (Rle_dec a b) end;
    lra.
Qed.

Lemma calculateWaterStressIndex_Fin (p pop : number) (t h : R) :
  calculateWaterStressIndex p (Fin t) (Fin h) pop
  = Fin (Spec.clamp
           (0 + aridityPoints (aridityIndex p (Fin t))
              + perCapitaPoints (perCapitaWater p pop)
              + Spec.clamp ((t - 15) * 3) 0 100 * 0.2
              + Spec.clamp ((60 - h) * 2) 0 100 * 0.1) 0 100).
Proof.
  unfold calculateWaterStressIndex; cbv zeta.
  rewrite stressIndexBeforeClamp_Fin.
  cbn [Math_max Math_min].
  rewrite min_max_clamp; reflexivity.
Qed.

(** The aridity chain against the reference thresholds. *)
Lemma aridityPoints_Fin (ai : R) : aridityPoints (Fin ai) = Spec.aridity_of_ratio ai.
Proof.
  unfold aridityPoints, Spec.aridity_of_ratio; cbn [num_lt].
  decide_reals; reflexivity.
Qed.

Lemma aridityIndex_nonpos (p : R) (t : number) :
  p <= 0 -> aridityIndex (Fin p) t = Fin 0.
Proof.
  intros H; unfold aridityIndex, num_gt.
  rewrite num_lt_Fin_false by exact H; reflexivity.
Qed.

Lemma aridityIndex_pos (p t : R) :
  0 < p ->
  aridityIndex (Fin p) (Fin t) = num_div (Fin p) (Fin (Spec.PET t)).
Proof.
  intros H; unfold aridityIndex, num_gt.
  rewrite num_lt_Fin_true by exact H.
  rewrite potentialEvapotranspiration_Fin; reflexivity.
Qed.

Lemma aridity_agrees (p t : R) :
  aridityPoints (aridityIndex (Fin p) (Fin t)) = Spec.aridity p t.
Proof.
  unfold Spec.aridity.
  destruct (Rlt_dec 0 p) as [Hp | Hp].
  - rewrite aridityIndex_pos by exact Hp.
    destruct (Req_dec_T (Spec.PET t) 0) as [E | E].
    + rewrite E, num_div_pos_zero by exact Hp. reflexivity.
    + rewrite num_div_Fin by exact E. apply aridityPoints_Fin.
  - rewrite aridityIndex_nonpos by lra. apply aridityPoints_Fin.
Qed.

Lemma per_capita_agrees (p pop : R) :
  0 < pop ->
  perCapitaPoints (perCapitaWater (Fin p) (Fin pop)) = Spec.per_capita p pop.
Proof.
  intros H; rewrite perCapitaWater_Fin by exact H.
  unfold perCapitaPoints, Spec.per_capita; cbn [num_lt]; cbv zeta.
  decide_reals; reflexivity.
Qed.

Lemma calculateWaterStressIndex_spec (p t h pop : R) :
  0 < pop ->
  calculateWaterStressIndex (Fin p) (Fin t) (Fin h) (Fin pop)
  = Fin (Spec.index p t h pop).
Proof.
  intros H; rewrite calculateWaterStressIndex_Fin.
  rewrite aridity_agrees, per_capita_agrees by exact H.
  unfold Spec.index, Spec.temperature_stress, Spec.humidity.
  rewrite Rplus_0_l; reflexivity.
Qed.

(** For finite temperature and humidity the returned index is a finite
    number in [[0, 100]], whatever precipitation and population are. *)
Lemma calculateWaterStressIndex_finite_range (p pop : number) (t h : R) :
  exists index : R,
    calculateWaterStressIndex p (Fin t) (Fin h) pop = Fin index
    /\ 0 <= index <= 100.
Proof.
  rewrite calculateWaterStressIndex_Fin.
  eexists; split; [reflexivity |].
  apply clamp_range; lra.
Qed.

(** With the sum already in range, the final clamp changes nothing. *)
Lemma calculateWaterStressIndex_unclamped (p pop : number) (t h : R) :
  calculateWaterStressIndex p (Fin t) (Fin h) pop
  = stressIndexBeforeClamp p (Fin t) (Fin h) pop.
Proof.
  rewrite calculateWaterStressIndex_Fin.
  pose proof (stressIndexBeforeClamp_range p pop t h _
                (stressIndexBeforeClamp_Fin p pop t h)) as Hr.
  rewrite stressIndexBeforeClamp_Fin.
  rewrite clamp_id by exact Hr; reflexivity.
Qed.

Lemma getSeverityLevel_Fin (x : R) :
  level (getSeverityLevel (Fin x)) =
    (if Rle_dec 80 x then "critical"
     else if Rle_dec 60 x then "severe"
     else if Rle_dec 40 x then "warning"
     else if Rle_dec 20 x then "moderate"
     else "low")%string.
Proof.
  unfold getSeverityLevel; cbn [num_ge].
  repeat match goal with
    | |- context [Rle_dec ?a ?b] => destruct (Rle_dec a b); [reflexivity |]
    end.
  reflexivity.
Qed.

(** ** The properties of the specification *)

(** C2.  For every precipitation >= 0, every real temperature, every
    humidity in [[0,100]] and every population > 0, the index returned by
    [calculateWaterStressIndex] is a number of [[0,100]]. *)
Theorem calculateWaterStressIndex_in_range
  (precipitation temperature humidity population : R) :
  0 <= precipitation ->
  0 <= humidity <= 100 ->
  0 < population ->
  exists index : R,
    calculateWaterStressIndex
      (Fin precipitation) (Fin temperature) (Fin humidity) (Fin population)
    = Fin index
    /\ 0 <= index <= 100.
Proof.
  intros _ _ _. apply calculateWaterStressIndex_finite_range.
Qed.

Lemma calculateWaterStressIndex_in_range_witness :
  exists index : R,
    calculateWaterStressIndex (Fin 1000000) (Fin (-60)) (Fin 0) (Fin 0.001)
    = Fin index
    /\ 0 <= index <= 100.
Proof.
  apply (calculateWaterStressIndex_in_range 1000000 (-60) 0 0.001); lra.
Defined.

(** C3.  [getSeverityLevel] partitions the index range: every real index
    (in particular every index of [[0,100]]) gets the level critical exactly
    when it is >= 80, severe exactly when >= 60 and < 80, warning exactly when
    >= 40 and < 60, moderate exactly when >= 20 and < 40, low exactly when
    < 20; the boundary values 80, 60, 40 and 20 get the higher level. *)
Theorem getSeverityLevel_partition (stressIndex : R) :
  let l := level (getSeverityLevel (Fin stressIndex)) in
  (l = "critical"%string <-> 80 <= stressIndex)
  /\ (l = "severe"%string <-> 60 <= stressIndex < 80)
  /\ (l = "warning"%string <-> 40 <= stressIndex < 60)
  /\ (l = "moderate"%string <-> 20 <= stressIndex < 40)
  /\ (l = "low"%string <-> stressIndex < 20)
  /\ level (getSeverityLevel (Fin 80)) = "critical"%string
  /\ level (getSeverityLevel (Fin 60)) = "severe"%string
  /\ level (getSeverityLevel (Fin 40)) = "warning"%string
  /\ level (getSeverityLevel (Fin 20)) = "moderate"%string.
Proof.
  cbv zeta. rewrite !getSeverityLevel_Fin.
  repeat match goal with
    | |- context [Rle_dec ?a ?b] => destruct (Rle_dec a b); try lra
    end;
    repeat split; intros; try discriminate; try lra; try reflexivity.
Qed.



Lemma PET_25 : Spec.PET 25 = 0.
Proof.
  unfold Spec.PET.
  replace (25 - 25) with 0 by lra.
  rewrite Rabs_R0, sqrt_0; lra.
Qed.


Lemma sqrt_between (x lo hi : R) :
  0 <= lo -> lo * lo < x -> x < hi * hi -> 0 <= hi -> lo < sqrt x < hi.
Proof.
  intros Hlo H1 H2 Hhi; split.
  - rewrite <- (sqrt_square lo Hlo). apply sqrt_lt_1_alt; nra.
  - rewrite <- (sqrt_square hi Hhi). apply sqrt_lt_1_alt; nra.
Qed.

(** C4.  For temperature exactly 25 and any precipitation > 0 the potential
    evapotranspiration is 0, the division yields [+Infinity] and raises
    nothing, every threshold comparison of the aridity chain fails, so the
    aridity chain adds nothing, and the function returns a finite number
    (of [[0,100]]). *)
Theorem temperature_25_no_division_error
  (precipitation humidity population : R) :
  0 < precipitation ->
  potentialEvapotranspiration (Fin 25) = Fin 0
  /\ aridityIndex (Fin precipitation) (Fin 25) = PInf
  /\ (forall stressIndex : number,
         aridityStep (aridityIndex (Fin precipitation) (Fin 25)) stressIndex
         = stressIndex)
  /\ aridityPoints (aridityIndex (Fin precipitation) (Fin 25)) = 0
  /\ exists index : R,
       calculateWaterStressIndex
         (Fin precipitation) (Fin 25) (Fin humidity) (Fin population)
       = Fin index
       /\ 0 <= index <= 100.
Proof.
  intros Hp.
  assert (Hai : aridityIndex (Fin precipitation) (Fin 25) = PInf).
  { rewrite aridityIndex_pos by exact Hp.
    rewrite PET_25. apply num_div_pos_zero; exact Hp. }
  split; [| split; [| split; [| split]]].
  - rewrite potentialEvapotranspiration_Fin, PET_25; reflexivity.
  - exact Hai.
  - intros s; rewrite Hai; reflexivity.
  - rewrite Hai; reflexivity.
  - apply calculateWaterStressIndex_finite_range.
Qed.

Lemma temperature_25_no_division_error_witness :
  potentialEvapotranspiration (Fin 25) = Fin 0
  /\ aridityIndex (Fin 3) (Fin 25) = PInf
  /\ (forall stressIndex : number,
         aridityStep (aridityIndex (Fin 3) (Fin 25)) stressIndex = stressIndex)
  /\ aridityPoints (aridityIndex (Fin 3) (Fin 25)) = 0
  /\ exists index : R,
       calculateWaterStressIndex (Fin 3) (Fin 25) (Fin 50) (Fin 2) = Fin index
       /\ 0 <= index <= 100.
Proof.
  apply (temperature_25_no_division_error 3 50 2); lra.
Defined.

(** C8.  The temperature contribution [tempStress * 0.2] never decreases
    when the temperature increases, never exceeds 20, and is exactly 20
    once [tempStress] has reached 100, which it has from 15 + 100/3 on. *)
Theorem temperature_contribution_monotone (T1 T2 : R) :
  T1 <= T2 ->
  exists c1 c2 : R,
    (tempStress (Fin T1) * Fin 0.2)%js = Fin c1
    /\ (tempStress (Fin T2) * Fin 0.2)%js = Fin c2
    /\ c1 <= c2 <= 20
    /\ (tempStress (Fin T2) = Fin 100 -> c2 = 20)
    /\ (15 + 100 / 3 <= T2 -> tempStress (Fin T2) = Fin 100).
Proof.
  intros H.
  exists (Spec.clamp ((T1 - 15) * 3) 0 100 * 0.2),
         (Spec.clamp ((T2 - 15) * 3) 0 100 * 0.2).
  rewrite !tempStress_Fin.
  pose proof (clamp_mono ((T1 - 15) * 3) ((T2 - 15) * 3) 0 100
                ltac:(lra) ltac:(lra)) as Hm.
  pose proof (clamp_range ((T2 - 15) * 3) 0 100 ltac:(lra)) as Hr.
  repeat split; try reflexivity; try lra.
  - intros E; injection E as E. rewrite E; lra.
  - intros Hsat. f_equal.
    unfold Spec.clamp.
    rewrite Rmin_left by lra. rewrite Rmax_right by lra. reflexivity.
Qed.

Lemma temperature_contribution_monotone_witness :
  exists c1 c2 : R,
    (tempStress (Fin 20) * Fin 0.2)%js = Fin c1
    /\ (tempStress (Fin 40) * Fin 0.2)%js = Fin c2
    /\ c1 <= c2 <= 20
    /\ (tempStress (Fin 40) = Fin 100 -> c2 = 20)
    /\ (15 + 100 / 3 <= 40 -> tempStress (Fin 40) = Fin 100).
Proof.
  apply (temperature_contribution_monotone 20 40); lra.
Defined.

(** C9.  For every real precipitation, temperature and humidity and every
    population > 0, the four contributions are bounded by 40, 30, 20 and 10
    and are not negative, their sum lies in [[0,100]], and
    [calculateWaterStressIndex] returns that sum: the final clamp is the
    identity. *)
Theorem final_clamp_is_identity
  (precipitation temperature humidity population : R) :
  0 < population ->
  0 <= aridityPoints (aridityIndex (Fin precipitation) (Fin temperature)) <= 40
  /\ 0 <= perCapitaPoints (perCapitaWater (Fin precipitation) (Fin population))
       <= 30
  /\ (exists c : R,
         (tempStress (Fin temperature) * Fin 0.2)%js = Fin c /\ 0 <= c <= 20)
  /\ (exists c : R,
         (humidityFactor (Fin humidity) * Fin 0.1)%js = Fin c /\ 0 <= c <= 10)
  /\ (exists sum : R,
         stressIndexBeforeClamp
           (Fin precipitation) (Fin temperature) (Fin humidity) (Fin population)
         = Fin sum
         /\ 0 <= sum <= 100)
  /\ calculateWaterStressIndex
       (Fin precipitation) (Fin temperature) (Fin humidity) (Fin population)
     = stressIndexBeforeClamp
         (Fin precipitation) (Fin temperature) (Fin humidity) (Fin population).
Proof.
  intros _.
  split; [apply aridityPoints_range |].
  split; [apply perCapitaPoints_range |].
  split.
  { rewrite tempStress_Fin. eexists; split; [reflexivity |].
    pose proof (clamp_range ((temperature - 15) * 3) 0 100 ltac:(lra)); lra. }
  split.
  { rewrite humidityFactor_Fin. eexists; split; [reflexivity |].
    pose proof (clamp_range ((60 - humidity) * 2) 0 100 ltac:(lra)); lra. }
  split.
  { eexists; split; [apply stressIndexBeforeClamp_Fin |].
    eapply stressIndexBeforeClamp_range, stressIndexBeforeClamp_Fin. }
  apply calculateWaterStressIndex_unclamped.
Qed.

Lemma final_clamp_is_identity_witness :
  0 <= aridityPoints (aridityIndex (Fin 50) (Fin 20)) <= 40
  /\ 0 <= perCapitaPoints (perCapitaWater (Fin 50) (Fin 5)) <= 30
  /\ (exists c : R, (tempStress (Fin 20) * Fin 0.2)%js = Fin c /\ 0 <= c <= 20)
  /\ (exists c : R,
         (humidityFactor (Fin 70) * Fin 0.1)%js = Fin c /\ 0 <= c <= 10)
  /\ (exists sum : R,
         stressIndexBeforeClamp (Fin 50) (Fin 20) (Fin 70) (Fin 5) = Fin sum
         /\ 0 <= sum <= 100)
  /\ calculateWaterStressIndex (Fin 50) (Fin 20) (Fin 70) (Fin 5)
     = stressIndexBeforeClamp (Fin 50) (Fin 20) (Fin 70) (Fin 5).
Proof.
  apply (final_clamp_is_identity 50 20 70 5); lra.
Defined.



Lemma div_lower (a b c : R) : 0 < c -> a * c <= b -> a <= b / c.
Proof.
  intros Hc H. apply Rmult_le_reg_r with c; [exact Hc |].
  unfold Rdiv. rewrite Rmult_assoc, Rinv_l by lra. lra.
Qed.

Lemma div_upper (a b c : R) : 0 < c -> b < a * c -> b / c < a.
Proof.
  intros Hc H. apply Rmult_lt_reg_r with c; [exact Hc |].
  unfold Rdiv. rewrite Rmult_assoc, Rinv_l by lra. lra.
Qed.

Lemma spec_index_scenario_1 : Spec.index 0 40 10 10 = 95.
Proof.
  unfold Spec.index, Spec.aridity, Spec.aridity_of_ratio, Spec.per_capita,
    Spec.per_capita_availability, Spec.temperature_stress, Spec.humidity.
  cbv zeta.
  rewrite (clamp_id ((40 - 15) * 3)) by lra.
  rewrite (clamp_id ((60 - 10) * 2)) by lra.
  decide_reals.
  rewrite clamp_id by lra. lra.
Qed.

Lemma spec_index_scenario_2 : Spec.index 50 20 70 5 = 33.
Proof.
  assert (Hs : 2 < sqrt (Rabs (25 - 20)) < 3).
  { replace (25 - 20) with 5 by lra. rewrite Rabs_pos_eq by lra.
    apply sqrt_between; lra. }
  assert (Hpet : 0 < Spec.PET 20 < 2) by (unfold Spec.PET; lra).
  assert (Hai : 0.65 <= 50 / Spec.PET 20) by (apply div_lower; lra).
  assert (Ha : 7 < sqrt (5 * 10) < 8) by (apply sqrt_between; lra).
  assert (Hpc : Spec.per_capita_availability 50 5 < 500).
  { unfold Spec.per_capita_availability. apply div_upper; lra. }
  assert (Et : Spec.clamp ((20 - 15) * 3) 0 100 = 15) by (rewrite clamp_id; lra).
  assert (Eh : Spec.clamp ((60 - 70) * 2) 0 100 = 0).
  { unfold Spec.clamp. rewrite Rmin_right by lra. rewrite Rmax_left by lra.
    reflexivity. }
  unfold Spec.index, Spec.aridity, Spec.aridity_of_ratio, Spec.per_capita,
    Spec.temperature_stress, Spec.humidity.
  cbv zeta. rewrite Et, Eh.
  decide_reals.
  rewrite clamp_id by lra. lra.
Qed.

Section Scenarios.

Import PrimFloat.

(** C6.  For precipitation 0, temperature 40, humidity 10 and population
    10, [calculateWaterStressIndex] returns exactly 95, as aridity 40 +
    per-capita 30 + temperature 15 + humidity 10, and [getSeverityLevel] of
    that index is critical; on binary64 floats the result is the float 95 and
    the level critical as well. *)
Theorem scenario_1_critical :
  calculateWaterStressIndex (Fin 0) (Fin 40) (Fin 10) (Fin 10) = Fin 95
  /\ aridityPoints (aridityIndex (Fin 0) (Fin 40)) = 40
  /\ perCapitaPoints (perCapitaWater (Fin 0) (Fin 10)) = 30
  /\ (tempStress (Fin 40) * Fin 0.2)%js = Fin 15
  /\ (humidityFactor (Fin 10) * Fin 0.1)%js = Fin 10
  /\ level (getSeverityLevel
              (calculateWaterStressIndex (Fin 0) (Fin 40) (Fin 10) (Fin 10)))
     = "critical"%string
  /\ Float64.calculateWaterStressIndex 0 40 10 10 = 95%float
  /\ level (Float64.getSeverityLevel
              (Float64.calculateWaterStressIndex 0 40 10 10))
     = "critical"%string.
Proof.
  assert (E : calculateWaterStressIndex (Fin 0) (Fin 40) (Fin 10) (Fin 10)
              = Fin 95).
  { rewrite calculateWaterStressIndex_spec by lra.
    rewrite spec_index_scenario_1; reflexivity. }
  split; [exact E |].
  split.
  { rewrite aridityIndex_nonpos by lra. rewrite aridityPoints_Fin.
    unfold Spec.aridity_of_ratio. decide_reals; reflexivity. }
  split.
  { rewrite per_capita_agrees by lra.
    unfold Spec.per_capita, Spec.per_capita_availability. cbv zeta.
    decide_reals; reflexivity. }
  split.
  { rewrite tempStress_Fin. cbn [num_mul]. f_equal.
    rewrite clamp_id; lra. }
  split.
  { rewrite humidityFactor_Fin. cbn [num_mul]. f_equal.
    rewrite clamp_id; lra. }
  split.
  { rewrite E, getSeverityLevel_Fin. decide_reals; reflexivity. }
  split; vm_compute; reflexivity.
Qed.

(** C7.  For precipitation 50, temperature 20, humidity 70 and population
    5, the index returned by [calculateWaterStressIndex] is 33, strictly
    below 40, and its severity level is moderate or low (it is moderate); on
    binary64 floats the index is below 40 and the level moderate or low as
    well. *)
Theorem scenario_2_below_40 :
  exists index : R,
    calculateWaterStressIndex (Fin 50) (Fin 20) (Fin 70) (Fin 5) = Fin index
    /\ index = 33
    /\ index < 40
    /\ (level (getSeverityLevel (Fin index)) = "moderate"%string
        \/ level (getSeverityLevel (Fin index)) = "low"%string)
    /\ (Float64.calculateWaterStressIndex 50 20 70 5 <? 40)%float = true
    /\ (level (Float64.getSeverityLevel
                 (Float64.calculateWaterStressIndex 50 20 70 5))
        = "moderate"%string
        \/ level (Float64.getSeverityLevel
                    (Float64.calculateWaterStressIndex 50 20 70 5))
           = "low"%string).
Proof.
  exists 33.
  split.
  { rewrite calculateWaterStressIndex_spec by lra.
    rewrite spec_index_scenario_2; reflexivity. }
  split; [reflexivity |].
  split; [lra |].
  split.
  { left. rewrite getSeverityLevel_Fin. decide_reals; reflexivity. }
  split; [vm_compute; reflexivity |].
  left; vm_compute; reflexivity.
Qed.

(** Temperature 25 on binary64 floats, at precipitation 3, humidity 50 and
    population 2: the potential evapotranspiration is [+0], the ratio is
    [+Infinity] and the index is 38. *)
Lemma float64_temperature_25 :
  Float64.potentialEvapotranspiration 25 = 0%float
  /\ Float64.aridityIndex 3 25 = infinity
  /\ Float64.calculateWaterStressIndex 3 25 50 2 = 38%float.
Proof. repeat split; vm_compute; reflexivity. Qed.

(** Two more points on binary64 floats: the four maxima add up to the
    float 100 before the final clamp, and at -40 degrees under heavy rain the
    aridity and per-capita chains still add 40 + 30. *)
Lemma float64_extremes :
  Float64.stressIndexBeforeClamp 0 100 0 10 = 100%float
  /\ Float64.stressIndexBeforeClamp 50 (-40) 100 5 = 70%float.
Proof. repeat split; vm_compute; reflexivity. Qed.

End Scenarios.

(** ** The data path: readings *)

Section Readings.

Import ListNotations.
Local Open Scope list_scope.

Lemma nearest_int_bounds (x : R) :
  IZR (nearest_int x) - / 2 <= x < IZR (nearest_int x) + / 2.
Proof.
  unfold nearest_int. pose proof (base_Int_part (x + / 2)) as [H1 H2]. lra.
Qed.

Lemma nearest_int_IZR (z : Z) : nearest_int (IZR z) = z.
Proof.
  unfold nearest_int. symmetry. apply Int_part_spec. lra.
Qed.

Lemma nearest_int_nonneg (x : R) : 0 <= x -> (0 <= nearest_int x)%Z.
Proof.
  intros H. pose proof (nearest_int_bounds x) as [_ H2].
  apply le_IZR. apply Rnot_lt_le. intros Hlt.
  assert (Hle : (nearest_int x <= -1)%Z) by (apply lt_IZR in Hlt; lia).
  apply IZR_le in Hle. lra.
Qed.

Lemma nearest_int_le (x : R) (z : Z) : x <= IZR z -> (nearest_int x <= z)%Z.
Proof.
  intros H. pose proof (nearest_int_bounds x) as [H1 _].
  apply Z.lt_succ_r. apply lt_IZR. rewrite succ_IZR. lra.
Qed.

Lemma small_magnitude (r : R) : Rabs r <= 100 -> ~ 10 ^ 21 <= Rabs r.
Proof. intros H. simpl. lra. Qed.

(** A value of [[0, 100]] printed with one digit reads back as a multiple of
    a tenth, in [[0, 100]], at most 0.05 away. *)
Lemma toFixed_1_close (r : R) :
  0 <= r <= 100 ->
  exists n : Z,
    toFixed_value (Fin r) 1 = Fin (IZR n / 10)
    /\ Rabs (IZR n / 10 - r) <= 0.05
    /\ 0 <= IZR n / 10 <= 100.
Proof.
  intros Hr. unfold toFixed_value.
  destruct (Rle_dec (10 ^ 21) (Rabs r)) as [Hbig | _].
  { exfalso. apply (small_magnitude r); [rewrite Rabs_pos_eq; lra | exact Hbig]. }
  cbv zeta. rewrite (Rabs_pos_eq r) by lra.
  destruct (Rlt_dec r 0) as [Hneg | _]; [lra |].
  replace (10 ^ 1) with 10 by (simpl; lra).
  exists (nearest_int (r * 10)). split; [reflexivity |].
  pose proof (nearest_int_bounds (r * 10)) as [H1 H2].
  pose proof (IZR_le _ _ (nearest_int_nonneg (r * 10) ltac:(lra))) as H0.
  pose proof (IZR_le _ _ (nearest_int_le (r * 10) 1000 ltac:(lra))) as H3.
  split; [apply Rabs_le; lra | lra].
Qed.

Lemma toFixed_tenth (z : Z) :
  (0 <= z <= 1000)%Z -> toFixed_value (Fin (IZR z / 10)) 1 = Fin (IZR z / 10).
Proof.
  intros [Hz0 Hz1]. apply IZR_le in Hz0, Hz1.
  unfold toFixed_value.
  rewrite (Rabs_pos_eq (IZR z / 10)) by lra.
  destruct (Rle_dec (10 ^ 21) (IZR z / 10)) as [Hbig | _].
  { exfalso. simpl in Hbig. lra. }
  cbv zeta. destruct (Rlt_dec (IZR z / 10) 0) as [Hneg | _]; [lra |].
  replace (10 ^ 1) with 10 by (simpl; lra).
  replace (IZR z / 10 * 10) with (IZR z) by lra.
  rewrite nearest_int_IZR. reflexivity.
Qed.

Lemma toFixed_finite (r : R) (d : nat) :
  exists v : R, toFixed_value (Fin r) d = Fin v.
Proof.
  unfold toFixed_value.
  destruct (Rle_dec (10 ^ 21) (Rabs r)); [eexists; reflexivity |].
  cbv zeta. destruct (Rlt_dec r 0); eexists; reflexivity.
Qed.

(** Sums and averages of finite values. *)
Lemma fold_add_Fin (rs : list R) (acc : R) :
  fold_left num_add (map Fin rs) (Fin acc) = Fin (fold_left Rplus rs acc).
Proof.
  revert acc. induction rs as [| r rs IH]; intros acc; [reflexivity |].
  cbn [map fold_left num_add]. apply IH.
Qed.

Lemma sum_Fin (rs : list R) : WMS.sum (map Fin rs) = Fin (fold_left Rplus rs 0).
Proof. apply fold_add_Fin. Qed.

Lemma average_Fin (rs : list R) :
  rs <> [] ->
  WMS.average (map Fin rs)
  = Fin (fold_left Rplus rs 0 / INR (length rs)).
Proof.
  intros Hne. unfold WMS.average. rewrite sum_Fin, length_map.
  apply num_div_Fin.
  destruct rs as [| r rs]; [congruence |].
  apply not_0_INR. discriminate.
Qed.

Lemma average_empty : WMS.average [] = NaN.
Proof.
  unfold WMS.average, WMS.sum. cbn [fold_left length INR num_div].
  rewrite sign_of_zero. reflexivity.
Qed.

Lemma valid_Fin (rs : list R) :
  WMS.valid (map Fin rs) = map Fin (filter not_sentinel rs).
Proof.
  unfold WMS.valid. induction rs as [| r rs IH]; [reflexivity |].
  cbn [map filter num_strict_neq]. unfold not_sentinel at 1.
  destruct (Req_dec_T r (-999)); cbn [map]; rewrite IH; reflexivity.
Qed.

Lemma averageOrZero_finite (rs : list R) (d : nat) :
  exists v : R, WMS.parseFloat (WMS.averageOrZero (map Fin rs) d) = Fin v.
Proof.
  destruct rs as [| r rs]; [exists 0; reflexivity |].
  change (map Fin (r :: rs)) with (Fin r :: map Fin rs).
  cbn [WMS.averageOrZero WMS.parseFloat].
  change (Fin r :: map Fin rs) with (map Fin (r :: rs)).
  rewrite average_Fin by discriminate. apply toFixed_finite.
Qed.

End Readings.

Section ReadingProperties.

Import ListNotations.
Local Open Scope list_scope.





Lemma index_no_data (pop : R) :
  0 < pop ->
  calculateWaterStressIndex (Fin 0) (Fin 0) (Fin 0) (Fin pop) = Fin 80.
Proof.
  intros Hpop. rewrite calculateWaterStressIndex_spec by exact Hpop. f_equal.
  unfold Spec.index, Spec.aridity, Spec.aridity_of_ratio, Spec.per_capita,
    Spec.temperature_stress, Spec.humidity.
  cbv zeta.
  assert (Ea : Spec.per_capita_availability 0 pop = 0).
  { unfold Spec.per_capita_availability, Rdiv. ring. }
  rewrite Ea.
  assert (Et : Spec.clamp ((0 - 15) * 3) 0 100 = 0).
  { unfold Spec.clamp. rewrite Rmin_right by lra. rewrite Rmax_left by lra.
    reflexivity. }
  assert (Eh : Spec.clamp ((60 - 0) * 2) 0 100 = 100).
  { unfold Spec.clamp. rewrite Rmin_left by lra. rewrite Rmax_right by lra.
    reflexivity. }
  rewrite Et, Eh. decide_reals.
  rewrite clamp_id by lra. lra.
Qed.

Lemma toFixed_80 : toFixed_value (Fin 80) 1 = Fin 80.
Proof.
  replace 80 with (IZR 800 / 10) by lra. apply toFixed_tenth. lia.
Qed.

Lemma valid_sentinel_only : WMS.valid [Fin (-999)] = [].
Proof.
  unfold WMS.valid. cbn [filter num_strict_neq].
  destruct (Req_dec_T (-999) (-999)); [reflexivity | congruence].
Qed.

(** The index a reading gets once its temperature and humidity read as
    finite numbers. *)
Lemma stressIndexOf_finite (c : WMS.city) (data : WMS.reading) (t h : R) :
  WMS.parseFloat (WMS.temperature data) = Fin t ->
  WMS.parseFloat (WMS.humidity data) = Fin h ->
  exists index : R,
    WMS.stressIndexOf c data = Fin index /\ 0 <= index <= 100.
Proof.
  intros Et Eh. unfold WMS.stressIndexOf. rewrite Et, Eh.
  apply calculateWaterStressIndex_finite_range.
Qed.

(** X3.  With series of finite values, as JSON carries them, a NASA reading
    always scores: whatever the three series hold (sentinels, nothing at
    all) and whatever the population is, [fetchCityData] returns an index
    that is a finite number of [[0,100]], never [NaN]. *)
Theorem nasa_reading_always_scores
  (c : WMS.city) (precip temp hum : option (list R))
  (openMeteo : option WMS.reading) (now clock : string) :
  exists (result : WMS.cityData) (index : R),
    WMS.fetchCityData c
      (WMS.fetchNASAPowerData
         (Some {| WMS.PRECTOTCORR := option_map (map Fin) precip;
                  WMS.T2M := option_map (map Fin) temp;
                  WMS.RH2M := option_map (map Fin) hum |})
         now)
      openMeteo clock
    = Some result
    /\ WMS.stressIndexOf c (WMS.dataOf result) = Fin index
    /\ 0 <= index <= 100.
Proof.
  unfold WMS.fetchNASAPowerData. cbv zeta.
  cbn [WMS.PRECTOTCORR WMS.T2M WMS.RH2M WMS.fetchCityData]. cbv zeta.
  assert (Hv : forall o : option (list R),
             exists rs, WMS.valid (WMS.values_or_empty (option_map (map Fin) o))
                        = map Fin rs).
  { intros [l |]; cbn [option_map WMS.values_or_empty].
    - exists (filter not_sentinel l). apply valid_Fin.
    - exists []. reflexivity. }
  destruct (Hv temp) as [ts Ets]. destruct (Hv hum) as [hs Ehs].
  destruct (averageOrZero_finite ts 1) as [t Et].
  destruct (averageOrZero_finite hs 1) as [h Eh].
  rewrite Ets, Ehs.
  match goal with |- exists r i, Some ?x = Some r /\ _ => exists x end.
  cbn [WMS.dataOf].
  match goal with
  | |- context [WMS.stressIndexOf c ?d] =>
      destruct (stressIndexOf_finite c d t h Et Eh) as [index [Ei Hr]]
  end.
  exists index. split; [reflexivity |]. split; [exact Ei | exact Hr].
Qed.

(** X4.  [calculateWaterStressIndex] propagates a [NaN] temperature or
    humidity: the index is [NaN] whatever the other arguments are, and
    [getSeverityLevel] puts [NaN] in the lowest class. *)
Theorem nan_index_scored_low (precipitation population other : number) :
  calculateWaterStressIndex precipitation NaN other population = NaN
  /\ (forall t : R,
        calculateWaterStressIndex precipitation (Fin t) NaN population = NaN)
  /\ level (getSeverityLevel NaN) = "low"%string.
Proof.
  split; [| split].
  - unfold calculateWaterStressIndex, stressIndexBeforeClamp. cbv zeta.
    rewrite aridityStep_Fin, perCapitaStep_Fin. reflexivity.
  - intros t.
    unfold calculateWaterStressIndex, stressIndexBeforeClamp. cbv zeta.
    rewrite aridityStep_Fin, perCapitaStep_Fin. reflexivity.
  - reflexivity.
Qed.

Lemma or_zero_finite (t : R) : exists t' : R, or_zero (Fin t) = Fin t'.
Proof.
  cbn [or_zero]. destruct (Req_dec_T t 0); eexists; reflexivity.
Qed.

Lemma openMeteo_temperature_finite (temp : option R) :
  exists t : R,
    match option_map Fin temp with
    | Some x => or_zero x
    | None => Fin 0
    end = Fin t.
Proof.
  destruct temp as [t |]; cbn [option_map].
  - apply or_zero_finite.
  - exists 0. reflexivity.
Qed.

Lemma humidity_zero_adds_10 : Spec.clamp ((60 - 0) * 2) 0 100 * 0.1 = 10.
Proof.
  unfold Spec.clamp. rewrite Rmin_left by lra. rewrite Rmax_right by lra. lra.
Qed.

Lemma perCapitaWater_NaN (population : number) :
  perCapitaWater NaN population = NaN.
Proof.
  unfold perCapitaWater, waterAvailable.
  destruct (areaKm2 population); destruct (population * Fin 1000000)%js;
    reflexivity.
Qed.

Lemma aridityIndex_NaN (temperature : number) :
  aridityIndex NaN temperature = Fin 0.
Proof. reflexivity. Qed.

(** X5.  A reading from the Open-Meteo fallback always scores, and never
    below 10: whatever the precipitation series holds and whatever the
    population is, the index is a finite number of [[10,100]], because the
    fetcher sets the humidity to 0 and the humidity term is then 10. *)
Theorem openMeteo_reading_scores_at_least_10
  (c : WMS.city) (precipitation_sum : option (list number))
  (current_temperature : option R) (now clock : string) :
  exists (result : WMS.cityData) (index : R),
    WMS.fetchCityData c None
      (WMS.fetchOpenMeteoData
         (Some {| WMS.daily := Some precipitation_sum;
                  WMS.current_temperature := option_map Fin current_temperature |})
         now)
      clock
    = Some result
    /\ WMS.source (WMS.dataOf result) = "Open-Meteo"%string
    /\ WMS.stressIndexOf c (WMS.dataOf result) = Fin index
    /\ 10 <= index <= 100.
Proof.
  unfold WMS.fetchOpenMeteoData.
  cbn [WMS.daily WMS.current_temperature WMS.fetchCityData]. cbv zeta.
  destruct (openMeteo_temperature_finite current_temperature) as [t Et].
  rewrite Et.
  eexists. eexists. split; [reflexivity |].
  cbn [WMS.dataOf WMS.source]. split; [reflexivity |].
  unfold WMS.stressIndexOf.
  cbn [WMS.precipitation WMS.temperature WMS.humidity WMS.parseFloat].
  rewrite calculateWaterStressIndex_Fin.
  split; [reflexivity |].
  rewrite humidity_zero_adds_10.
  match goal with
  | |- context [aridityPoints ?a] => pose proof (aridityPoints_range a)
  end.
  match goal with
  | |- context [perCapitaPoints ?a] => pose proof (perCapitaPoints_range a)
  end.
  pose proof (clamp_range ((t - 15) * 3) 0 100 ltac:(lra)).
  rewrite clamp_id; lra.
Qed.

(** X6.  When the Open-Meteo response has no daily precipitation values,
    the average is 0/0: the reading's precipitation is [NaN], the aridity
    chain adds 40, the per-capita chain adds nothing, and the index is
    50 + the temperature term, a number of [[50,70]] with severity warning
    or severe. *)
Theorem openMeteo_empty_precipitation
  (c : WMS.city) (precipitation_sum : option (list number))
  (current_temperature : option R) (now clock : string) :
  WMS.values_or_empty precipitation_sum = [] ->
  exists (result : WMS.cityData) (index : R),
    WMS.fetchCityData c None
      (WMS.fetchOpenMeteoData
         (Some {| WMS.daily := Some precipitation_sum;
                  WMS.current_temperature := option_map Fin current_temperature |})
         now)
      clock
    = Some result
    /\ WMS.parseFloat (WMS.precipitation (WMS.dataOf result)) = NaN
    /\ WMS.stressIndexOf c (WMS.dataOf result) = Fin index
    /\ 50 <= index <= 70
    /\ (WMS.severity result = "warning"%string
        \/ WMS.severity result = "severe"%string).
Proof.
  intros Hempty.
  unfold WMS.fetchOpenMeteoData.
  cbn [WMS.daily WMS.current_temperature WMS.fetchCityData]. cbv zeta.
  rewrite Hempty, average_empty.
  destruct (openMeteo_temperature_finite current_temperature) as [t Et].
  rewrite Et.
  assert (Ei : WMS.stressIndexOf c
                 {| WMS.precipitation := WMS.Fixed NaN 2;
                    WMS.temperature := WMS.Num (Fin t);
                    WMS.humidity := WMS.Num (Fin 0);
                    WMS.source := "Open-Meteo";
                    WMS.timestamp := now |}
               = Fin (50 + Spec.clamp ((t - 15) * 3) 0 100 * 0.2)).
  { unfold WMS.stressIndexOf.
    cbn [WMS.precipitation WMS.temperature WMS.humidity WMS.parseFloat
           toFixed_value].
    rewrite calculateWaterStressIndex_Fin.
    rewrite aridityIndex_NaN, perCapitaWater_NaN, humidity_zero_adds_10.
    rewrite aridityPoints_Fin. unfold Spec.aridity_of_ratio.
    destruct (Rlt_dec 0 0.05) as [_ | Hn]; [| lra].
    change (perCapitaPoints NaN) with 0.
    pose proof (clamp_range ((t - 15) * 3) 0 100 ltac:(lra)).
    rewrite clamp_id by lra. f_equal. lra. }
  pose proof (clamp_range ((t - 15) * 3) 0 100 ltac:(lra)) as Hr.
  eexists. eexists. split; [reflexivity |].
  cbn [WMS.dataOf WMS.severity]. rewrite Ei.
  split; [reflexivity |]. split; [reflexivity |]. split; [lra |].
  rewrite getSeverityLevel_Fin.
  destruct (Rle_dec 80 _); [lra |].
  destruct (Rle_dec 60 _); [right; reflexivity |].
  destruct (Rle_dec 40 _); [left; reflexivity | lra].
Qed.

Lemma openMeteo_empty_precipitation_witness :
  exists (result : WMS.cityData) (index : R),
    WMS.fetchCityData
      {| WMS.name := "Dubai"; WMS.lat := 25.2048; WMS.lon := 55.2708;
         WMS.country := "AE"; WMS.population := 3.3 |}
      None
      (WMS.fetchOpenMeteoData
         (Some {| WMS.daily := Some (Some []);
                  WMS.current_temperature := option_map Fin (Some 41) |})
         "2024-06-01T00:00:00.000Z")
      "12:00:00 AM"
    = Some result
    /\ WMS.parseFloat (WMS.precipitation (WMS.dataOf result)) = NaN
    /\ WMS.stressIndexOf
         {| WMS.name := "Dubai"; WMS.lat := 25.2048; WMS.lon := 55.2708;
            WMS.country := "AE"; WMS.population := 3.3 |}
         (WMS.dataOf result)
       = Fin index
    /\ 50 <= index <= 70
    /\ (WMS.severity result = "warning"%string
        \/ WMS.severity result = "severe"%string).
Proof.
  apply (openMeteo_empty_precipitation
           {| WMS.name := "Dubai"; WMS.lat := 25.2048; WMS.lon := 55.2708;
              WMS.country := "AE"; WMS.population := 3.3 |}
           (Some []) (Some 41)).
  reflexivity.
Defined.

End ReadingProperties.

(** ** The data path: what is displayed *)

Section Display.

Import ListNotations.
Local Open Scope list_scope.

(** The object [fetchCityData] returns, field by field. *)
Lemma fetchCityData_fields
  (c : WMS.city) (nasa openMeteo : option WMS.reading) (clock : string)
  (result : WMS.cityData) :
  WMS.fetchCityData c nasa openMeteo clock = Some result ->
  WMS.cityOf result = c
  /\ Some (WMS.dataOf result)
     = match nasa with Some d => Some d | None => openMeteo end
  /\ WMS.waterStress result
     = WMS.Fixed (WMS.stressIndexOf c (WMS.dataOf result)) 1
  /\ WMS.severity result
     = level (getSeverityLevel (WMS.stressIndexOf c (WMS.dataOf result)))
  /\ WMS.severityColor result
     = color (getSeverityLevel (WMS.stressIndexOf c (WMS.dataOf result))).
Proof.
  unfold WMS.fetchCityData. cbv zeta.
  destruct (match nasa with Some d => Some d | None => openMeteo end)
    as [data |]; [| discriminate].
  intros E. injection E as <-. cbn. repeat split; reflexivity.
Qed.

Lemma toFixed_1_band (index : R) (z : Z) :
  (0 < z <= 1000)%Z ->
  IZR z / 10 - 0.05 <= index < IZR z / 10 + 0.05 ->
  toFixed_value (Fin index) 1 = Fin (IZR z / 10).
Proof.
  intros [Hz0 Hz1] Hb.
  assert (H1 : 1 <= IZR z) by (apply IZR_le; lia).
  apply IZR_le in Hz1.
  unfold toFixed_value.
  rewrite (Rabs_pos_eq index) by lra.
  destruct (Rle_dec (10 ^ 21) index) as [Hbig | _].
  { exfalso. simpl in Hbig. lra. }
  cbv zeta. destruct (Rlt_dec index 0) as [Hneg | _]; [lra |].
  replace (10 ^ 1) with 10 by (simpl; lra).
  assert (E : nearest_int (index * 10) = z).
  { unfold nearest_int. symmetry. apply Int_part_spec. lra. }
  rewrite E. reflexivity.
Qed.

Lemma stressIndexOf_hot_dry :
  WMS.stressIndexOf phoenix hot_dry_reading = Fin 79.96.
Proof.
  unfold WMS.stressIndexOf, hot_dry_reading, phoenix.
  cbn [WMS.precipitation WMS.temperature WMS.humidity WMS.population
         WMS.parseFloat].
  replace 31.6 with (IZR 316 / 10) by lra.
  replace 60 with (IZR 600 / 10) at 1 by lra.
  rewrite !toFixed_tenth by lia.
  rewrite calculateWaterStressIndex_spec by lra. f_equal.
  unfold Spec.index, Spec.aridity, Spec.aridity_of_ratio, Spec.per_capita,
    Spec.temperature_stress, Spec.humidity.
  cbv zeta.
  assert (Ea : Spec.per_capita_availability 0 5.0 = 0).
  { unfold Spec.per_capita_availability, Rdiv. ring. }
  rewrite Ea.
  rewrite (clamp_id ((316 / 10 - 15) * 3)) by lra.
  rewrite (clamp_id ((60 - 600 / 10) * 2)) by lra.
  decide_reals.
  rewrite clamp_id by lra. lra.
Qed.

(** X7.  The stress value a city shows is the index printed with one
    digit: once the reading's temperature and humidity read as finite
    numbers, the shown value is a whole number of tenths in [[0,100]], at most
    0.05 away from the index. *)
Theorem waterStress_shown_within_half_tenth
  (c : WMS.city) (nasa openMeteo : option WMS.reading) (clock : string)
  (result : WMS.cityData) (t h : R) :
  WMS.fetchCityData c nasa openMeteo clock = Some result ->
  WMS.parseFloat (WMS.temperature (WMS.dataOf result)) = Fin t ->
  WMS.parseFloat (WMS.humidity (WMS.dataOf result)) = Fin h ->
  exists (index : R) (tenths : Z),
    WMS.stressIndexOf c (WMS.dataOf result) = Fin index
    /\ WMS.parseFloat (WMS.waterStress result) = Fin (IZR tenths / 10)
    /\ Rabs (IZR tenths / 10 - index) <= 0.05
    /\ 0 <= IZR tenths / 10 <= 100.
Proof.
  intros Hf Et Eh.
  destruct (fetchCityData_fields _ _ _ _ _ Hf) as (_ & _ & Ew & _).
  destruct (stressIndexOf_finite c _ t h Et Eh) as [index [Ei Hr]].
  destruct (toFixed_1_close index Hr) as [n (En & Hc & Hn)].
  exists index, n. rewrite Ew. cbn [WMS.parseFloat]. rewrite Ei.
  repeat split; try assumption; lra.
Qed.

Lemma hot_dry_reads_finite :
  WMS.parseFloat (WMS.temperature hot_dry_reading) = Fin 31.6
  /\ WMS.parseFloat (WMS.humidity hot_dry_reading) = Fin 60.
Proof.
  cbn [hot_dry_reading WMS.temperature WMS.humidity WMS.parseFloat].
  split.
  - replace 31.6 with (IZR 316 / 10) by lra. apply toFixed_tenth. lia.
  - replace 60 with (IZR 600 / 10) by lra. apply toFixed_tenth. lia.
Qed.

Lemma waterStress_shown_within_half_tenth_witness :
  exists (index : R) (tenths : Z),
    WMS.stressIndexOf phoenix (WMS.dataOf phoenix_hot_dry) = Fin index
    /\ WMS.parseFloat (WMS.waterStress phoenix_hot_dry)
       = Fin (IZR tenths / 10)
    /\ Rabs (IZR tenths / 10 - index) <= 0.05
    /\ 0 <= IZR tenths / 10 <= 100.
Proof.
  apply (waterStress_shown_within_half_tenth
           phoenix (Some hot_dry_reading) None "12:00:00 AM"
           phoenix_hot_dry 31.6 60).
  - reflexivity.
  - exact (proj1 hot_dry_reads_finite).
  - exact (proj2 hot_dry_reads_finite).
Defined.

(** X8.  The severity label is taken from the index before it is rounded
    for display.  An index less than 0.05 below one of the thresholds 80, 60,
    40, 20 is therefore shown as the threshold itself, while the label is not
    the one [getSeverityLevel] gives the shown value. *)
Theorem label_lags_shown_value
  (c : WMS.city) (nasa openMeteo : option WMS.reading) (clock : string)
  (result : WMS.cityData) (index threshold : R) :
  WMS.fetchCityData c nasa openMeteo clock = Some result ->
  WMS.stressIndexOf c (WMS.dataOf result) = Fin index ->
  threshold = 80 \/ threshold = 60 \/ threshold = 40 \/ threshold = 20 ->
  threshold - 0.05 <= index < threshold ->
  WMS.parseFloat (WMS.waterStress result) = Fin threshold
  /\ WMS.severity result <> level (getSeverityLevel (Fin threshold)).
Proof.
  intros Hf Ei Hth Hb.
  destruct (fetchCityData_fields _ _ _ _ _ Hf) as (_ & _ & Ew & Es & _).
  rewrite Ew, Es, Ei. cbn [WMS.parseFloat]. rewrite !getSeverityLevel_Fin.
  destruct Hth as [-> | [-> | [-> | ->]]].
  - split.
    + replace 80 with (IZR 800 / 10) by lra.
      apply toFixed_1_band; [lia | lra].
    + decide_reals; discriminate.
  - split.
    + replace 60 with (IZR 600 / 10) by lra.
      apply toFixed_1_band; [lia | lra].
    + decide_reals; discriminate.
  - split.
    + replace 40 with (IZR 400 / 10) by lra.
      apply toFixed_1_band; [lia | lra].
    + decide_reals; discriminate.
  - split.
    + replace 20 with (IZR 200 / 10) by lra.
      apply toFixed_1_band; [lia | lra].
    + decide_reals; discriminate.
Qed.

Lemma label_lags_shown_value_witness :
  WMS.parseFloat (WMS.waterStress phoenix_hot_dry) = Fin 80
  /\ WMS.severity phoenix_hot_dry <> level (getSeverityLevel (Fin 80)).
Proof.
  apply (label_lags_shown_value
           phoenix (Some hot_dry_reading) None "12:00:00 AM"
           phoenix_hot_dry 79.96 80).
  - reflexivity.
  - exact stressIndexOf_hot_dry.
  - left; reflexivity.
  - lra.
Defined.

(** X9.  The radius of a city's map marker, [8 + waterStress / 10], lies
    between 8 and 18 once the reading's temperature and humidity read as
    finite numbers. *)
Theorem marker_radius_between_8_and_18
  (c : WMS.city) (nasa openMeteo : option WMS.reading) (clock : string)
  (result : WMS.cityData) (t h : R) :
  WMS.fetchCityData c nasa openMeteo clock = Some result ->
  WMS.parseFloat (WMS.temperature (WMS.dataOf result)) = Fin t ->
  WMS.parseFloat (WMS.humidity (WMS.dataOf result)) = Fin h ->
  exists radius : R,
    WMS.markerRadius result = Fin radius /\ 8 <= radius <= 18.
Proof.
  intros Hf Et Eh.
  destruct (fetchCityData_fields _ _ _ _ _ Hf) as (_ & _ & Ew & _).
  destruct (stressIndexOf_finite c _ t h Et Eh) as [index [Ei Hr]].
  destruct (toFixed_1_close index Hr) as [n (En & _ & Hn)].
  exists (8 + IZR n / 10 / 10).
  unfold WMS.markerRadius. rewrite Ew. cbn [WMS.parseFloat].
  rewrite Ei, En, num_div_Fin by lra.
  split; [reflexivity | lra].
Qed.

Lemma marker_radius_between_8_and_18_witness :
  exists radius : R,
    WMS.markerRadius phoenix_hot_dry = Fin radius /\ 8 <= radius <= 18.
Proof.
  apply (marker_radius_between_8_and_18
           phoenix (Some hot_dry_reading) None "12:00:00 AM"
           phoenix_hot_dry 31.6 60).
  - reflexivity.
  - exact (proj1 hot_dry_reads_finite).
  - exact (proj2 hot_dry_reads_finite).
Defined.

Lemma num_ge_80_60 (x : number) :
  num_ge x (Fin 80) = true -> num_ge x (Fin 60) = true.
Proof.
  destruct x as [| | | r]; cbn [num_ge]; try congruence.
  destruct (Rle_dec 80 r); [| discriminate].
  intros _. destruct (Rle_dec 60 r); [reflexivity | lra].
Qed.

(** X10.  The ticker dot of a city follows its index, not its severity
    name: the dot is critical from 80 on, warning from 60 up to 80, and
    normal below 60 (and for a [NaN] index), so a city of severity warning
    gets a normal dot. *)
Theorem ticker_dot_by_index
  (c : WMS.city) (nasa openMeteo : option WMS.reading) (clock : string)
  (result : WMS.cityData) :
  WMS.fetchCityData c nasa openMeteo clock = Some result ->
  WMS.tickerDotClass result
  = (if num_ge (WMS.stressIndexOf c (WMS.dataOf result)) (Fin 80)
     then "ticker-dot critical"
     else if num_ge (WMS.stressIndexOf c (WMS.dataOf result)) (Fin 60)
          then "ticker-dot warning"
          else "ticker-dot normal")%string.
Proof.
  intros Hf.
  destruct (fetchCityData_fields _ _ _ _ _ Hf) as (_ & _ & _ & Es & _).
  unfold WMS.tickerDotClass. rewrite Es. unfold getSeverityLevel.
  destruct (num_ge _ (Fin 80)); [reflexivity |].
  destruct (num_ge _ (Fin 60)); [reflexivity |].
  destruct (num_ge _ (Fin 40)); [reflexivity |].
  destruct (num_ge _ (Fin 20)); reflexivity.
Qed.

Lemma ticker_dot_by_index_witness :
  WMS.tickerDotClass phoenix_hot_dry
  = (if num_ge (WMS.stressIndexOf phoenix (WMS.dataOf phoenix_hot_dry)) (Fin 80)
     then "ticker-dot critical"
     else if num_ge (WMS.stressIndexOf phoenix (WMS.dataOf phoenix_hot_dry))
               (Fin 60)
          then "ticker-dot warning"
          else "ticker-dot normal")%string.
Proof.
  apply (ticker_dot_by_index
           phoenix (Some hot_dry_reading) None "12:00:00 AM" phoenix_hot_dry).
  reflexivity.
Defined.

Lemma high_severity_iff (x : number) :
  (String.eqb (level (getSeverityLevel x)) "critical"
   || String.eqb (level (getSeverityLevel x)) "severe")%bool
  = num_ge x (Fin 60).
Proof.
  unfold getSeverityLevel.
  destruct (num_ge x (Fin 80)) eqn:E80.
  - rewrite (num_ge_80_60 x E80). reflexivity.
  - destruct (num_ge x (Fin 60)); [reflexivity |].
    destruct (num_ge x (Fin 40)); [reflexivity |].
    destruct (num_ge x (Fin 20)); reflexivity.
Qed.

Lemma filter_exclusive_count {A : Type} (p q : A -> bool) (l : list A) :
  (forall x, In x l -> (p x && q x)%bool = false) ->
  (length (filter p l) + length (filter q l))%nat
  = length (filter (fun x => (p x || q x)%bool) l).
Proof.
  induction l as [| x l IH]; intros H; [reflexivity |].
  cbn [filter].
  pose proof (H x (or_introl eq_refl)) as Hx.
  specialize (IH (fun y Hy => H y (or_intror Hy))).
  destruct (p x), (q x); cbn in Hx |- *; try discriminate; lia.
Qed.

(** X11.  The number [updateMainStats] writes to [criticalZones] counts
    the stored cities whose index is at least 60, a city of [NaN] index not
    being one, and never exceeds the number written to [globalCoverage], the
    size of the store. *)
Theorem critical_zones_count (currentData : WMS.Map) :
  Forall
    (fun d =>
       WMS.severity d
       = level (getSeverityLevel (WMS.stressIndexOf (WMS.cityOf d) (WMS.dataOf d))))
    (WMS.Map_values currentData) ->
  fst (WMS.updateMainStats currentData) = WMS.Map_size currentData
  /\ snd (WMS.updateMainStats currentData)
     = length
         (filter
            (fun d =>
               num_ge (WMS.stressIndexOf (WMS.cityOf d) (WMS.dataOf d)) (Fin 60))
            (WMS.Map_values currentData))
  /\ (snd (WMS.updateMainStats currentData) <= WMS.Map_size currentData)%nat.
Proof.
  intros Hs. unfold WMS.updateMainStats. cbv zeta. cbn [fst snd].
  assert (El : length (WMS.Map_values currentData) = WMS.Map_size currentData).
  { unfold WMS.Map_values, WMS.Map_size. apply length_map. }
  rewrite filter_exclusive_count.
  2:{ intros d _. destruct (String.eqb_spec (WMS.severity d) "critical") as [E |];
      [rewrite E; reflexivity | reflexivity]. }
  assert (Ef : filter
                 (fun d =>
                    (String.eqb (WMS.severity d) "critical"
                     || String.eqb (WMS.severity d) "severe")%bool)
                 (WMS.Map_values currentData)
               = filter
                   (fun d =>
                      num_ge (WMS.stressIndexOf (WMS.cityOf d) (WMS.dataOf d))
                        (Fin 60))
                   (WMS.Map_values currentData)).
  { apply filter_ext_in. intros d Hd.
    rewrite Forall_forall in Hs. rewrite (Hs d Hd). apply high_severity_iff. }
  rewrite Ef. split; [exact El |]. split; [reflexivity |].
  rewrite <- El. apply filter_length_le.
Qed.

Lemma critical_zones_count_witness :
  fst (WMS.updateMainStats [("Phoenix"%string, phoenix_hot_dry)])
  = WMS.Map_size [("Phoenix"%string, phoenix_hot_dry)]
  /\ snd (WMS.updateMainStats [("Phoenix"%string, phoenix_hot_dry)])
     = length
         (filter
            (fun d =>
               num_ge (WMS.stressIndexOf (WMS.cityOf d) (WMS.dataOf d)) (Fin 60))
            (WMS.Map_values [("Phoenix"%string, phoenix_hot_dry)]))
  /\ (snd (WMS.updateMainStats [("Phoenix"%string, phoenix_hot_dry)])
      <= WMS.Map_size [("Phoenix"%string, phoenix_hot_dry)])%nat.
Proof.
  apply (critical_zones_count [("Phoenix"%string, phoenix_hot_dry)]).
  repeat constructor.
Defined.

End Display.

(** ** The store [currentData] and the refresh *)

Section Store.

Import ListNotations.
Local Open Scope list_scope.

Lemma Map_get_set_same (k : string) (v : WMS.cityData) (m : WMS.Map) :
  WMS.Map_get k (WMS.Map_set k v m) = Some v.
Proof.
  induction m as [| [k' v'] m IH]; cbn [WMS.Map_set WMS.Map_get].
  - rewrite String.eqb_refl. reflexivity.
  - destruct (String.eqb k' k) eqn:E; cbn [WMS.Map_get].
    + rewrite String.eqb_refl. reflexivity.
    + rewrite E. exact IH.
Qed.

Lemma Map_get_set_other (k k' : string) (v : WMS.cityData) (m : WMS.Map) :
  k <> k' -> WMS.Map_get k' (WMS.Map_set k v m) = WMS.Map_get k' m.
Proof.
  intros Hne. induction m as [| [k0 v0] m IH]; cbn [WMS.Map_set WMS.Map_get].
  - apply String.eqb_neq in Hne. rewrite Hne. reflexivity.
  - destruct (String.eqb k0 k) eqn:E; cbn [WMS.Map_get].
    + apply String.eqb_eq in E. subst k0.
      apply String.eqb_neq in Hne. rewrite Hne. reflexivity.
    + destruct (String.eqb k0 k'); [reflexivity | exact IH].
Qed.

Lemma Map_keys_set (k : string) (v : WMS.cityData) (m : WMS.Map) :
  WMS.Map_keys (WMS.Map_set k v m)
  = if in_dec string_dec k (WMS.Map_keys m)
    then WMS.Map_keys m
    else WMS.Map_keys m ++ [k].
Proof.
  induction m as [| [k' v'] m IH]; cbn [WMS.Map_set WMS.Map_keys map fst].
  - destruct (in_dec string_dec k []) as [[] |]. reflexivity.
  - destruct (String.eqb_spec k' k) as [E | E]; cbn [map fst].
    + subst k'. destruct (in_dec string_dec k (k :: map fst m)) as [_ | Hn];
        [reflexivity | exfalso; apply Hn; left; reflexivity].
    + fold (WMS.Map_keys (WMS.Map_set k v m)). rewrite IH.
      fold (WMS.Map_keys m).
      destruct (in_dec string_dec k (WMS.Map_keys m)) as [Hin | Hn];
        destruct (in_dec string_dec k (k' :: WMS.Map_keys m)) as [Hin' | Hn'].
      * reflexivity.
      * exfalso. apply Hn'. right. exact Hin.
      * exfalso. destruct Hin' as [E' | Hin']; [congruence | contradiction].
      * reflexivity.
Qed.

Lemma updateAllCities_cons
  (fetched : WMS.city -> option WMS.cityData) (c : WMS.city)
  (cs : list WMS.city) (m : WMS.Map) :
  WMS.updateAllCities fetched (c :: cs) m
  = WMS.updateAllCities fetched cs
      (match fetched c with
       | Some data => WMS.Map_set (WMS.name c) data m
       | None => m
       end).
Proof. reflexivity. Qed.

Lemma updateAllCities_get_other
  (fetched : WMS.city -> option WMS.cityData) (cs : list WMS.city)
  (m : WMS.Map) (key : string) :
  ~ In key (map WMS.name cs) ->
  WMS.Map_get key (WMS.updateAllCities fetched cs m) = WMS.Map_get key m.
Proof.
  revert m. induction cs as [| c cs IH]; intros m Hn; [reflexivity |].
  rewrite updateAllCities_cons, IH.
  - destruct (fetched c); [| reflexivity].
    apply Map_get_set_other. intros E. apply Hn. left. exact E.
  - intros Hin. apply Hn. right. exact Hin.
Qed.

Lemma updateAllCities_get
  (fetched : WMS.city -> option WMS.cityData) (cs : list WMS.city)
  (m : WMS.Map) (c : WMS.city) :
  NoDup (map WMS.name cs) ->
  In c cs ->
  WMS.Map_get (WMS.name c) (WMS.updateAllCities fetched cs m)
  = match fetched c with
    | Some data => Some data
    | None => WMS.Map_get (WMS.name c) m
    end.
Proof.
  revert m. induction cs as [| c0 cs IH]; intros m Hnd Hin; [destruct Hin |].
  cbn [map] in Hnd. apply NoDup_cons_iff in Hnd as [Hfresh Hnd].
  rewrite updateAllCities_cons.
  destruct Hin as [-> | Hin].
  - rewrite updateAllCities_get_other by exact Hfresh.
    destruct (fetched c); [apply Map_get_set_same | reflexivity].
  - rewrite (IH _ Hnd Hin).
    destruct (fetched c) as [d |]; [reflexivity |].
    destruct (fetched c0) as [d0 |]; [| reflexivity].
    apply Map_get_set_other. intros E. apply Hfresh.
    rewrite E. apply in_map. exact Hin.
Qed.

Lemma cities_names_NoDup : NoDup (map WMS.name WMS.cities).
Proof.
  apply (NoDup_count_occ' string_dec). intros k Hk.
  cbn [WMS.cities map WMS.name] in Hk |- *.
  repeat (destruct Hk as [<- | Hk]; [vm_compute; reflexivity |]).
  destruct Hk.
Qed.

Lemma cities_length : length WMS.cities = 20%nat.
Proof. reflexivity. Qed.

Lemma cities_population_positive :
  Forall (fun c => 0 < WMS.population c) WMS.cities.
Proof. unfold WMS.cities. repeat constructor; cbn [WMS.population]; lra. Qed.

Lemma phoenix_configured : In phoenix WMS.cities.
Proof. unfold WMS.cities, phoenix. do 15 right. left. reflexivity. Qed.

(** X12.  After [updateAllCities], the store holds for each configured
    city what [fetchCityData] returned in this round, and, when it returned
    [null], what the store held before: a failed fetch leaves the stale entry
    in place.  Entries under any other key are not touched. *)
Theorem refresh_overwrites_or_keeps_stale
  (fetched : WMS.city -> option WMS.cityData) (currentData : WMS.Map)
  (c : WMS.city) :
  In c WMS.cities ->
  WMS.Map_get (WMS.name c)
    (WMS.updateAllCities fetched WMS.cities currentData)
  = match fetched c with
    | Some data => Some data
    | None => WMS.Map_get (WMS.name c) currentData
    end
  /\ forall key : string,
       ~ In key (map WMS.name WMS.cities) ->
       WMS.Map_get key (WMS.updateAllCities fetched WMS.cities currentData)
       = WMS.Map_get key currentData.
Proof.
  intros Hin. split.
  - apply updateAllCities_get; [exact cities_names_NoDup | exact Hin].
  - intros key Hk. apply updateAllCities_get_other. exact Hk.
Qed.

Lemma refresh_overwrites_or_keeps_stale_witness :
  WMS.Map_get (WMS.name phoenix)
    (WMS.updateAllCities (fun _ => None) WMS.cities
       [("Phoenix"%string, phoenix_hot_dry)])
  = match (fun _ : WMS.city => @None WMS.cityData) phoenix with
    | Some data => Some data
    | None => WMS.Map_get (WMS.name phoenix) [("Phoenix"%string, phoenix_hot_dry)]
    end
  /\ forall key : string,
       ~ In key (map WMS.name WMS.cities) ->
       WMS.Map_get key
         (WMS.updateAllCities (fun _ => None) WMS.cities
            [("Phoenix"%string, phoenix_hot_dry)])
       = WMS.Map_get key [("Phoenix"%string, phoenix_hot_dry)].
Proof.
  apply (refresh_overwrites_or_keeps_stale
           (fun _ => None) [("Phoenix"%string, phoenix_hot_dry)] phoenix).
  exact phoenix_configured.
Defined.

Lemma Map_set_keys_invariant (k : string) (v : WMS.cityData) (m : WMS.Map) :
  NoDup (WMS.Map_keys m) ->
  NoDup (WMS.Map_keys (WMS.Map_set k v m))
  /\ incl (WMS.Map_keys m) (WMS.Map_keys (WMS.Map_set k v m))
  /\ incl (WMS.Map_keys (WMS.Map_set k v m)) (WMS.Map_keys m ++ [k]).
Proof.
  intros Hnd. rewrite Map_keys_set.
  destruct (in_dec string_dec k (WMS.Map_keys m)) as [Hin | Hn].
  - split; [exact Hnd |]. split; [apply incl_refl |].
    apply incl_appl, incl_refl.
  - split; [| split; [apply incl_appl, incl_refl | apply incl_refl]].
    apply NoDup_app; [exact Hnd | repeat constructor; intros [] |].
    intros x Hx [<- | []]. contradiction.
Qed.

Lemma updateAllCities_keys_invariant
  (fetched : WMS.city -> option WMS.cityData) (cs : list WMS.city)
  (m : WMS.Map) :
  NoDup (WMS.Map_keys m) ->
  NoDup (WMS.Map_keys (WMS.updateAllCities fetched cs m))
  /\ incl (WMS.Map_keys m) (WMS.Map_keys (WMS.updateAllCities fetched cs m))
  /\ incl (WMS.Map_keys (WMS.updateAllCities fetched cs m))
       (WMS.Map_keys m ++ map WMS.name cs).
Proof.
  revert m. induction cs as [| c cs IH]; intros m Hnd.
  - cbn. rewrite app_nil_r. repeat split; [exact Hnd | |]; apply incl_refl.
  - rewrite updateAllCities_cons. cbn [map].
    destruct (fetched c) as [d |].
    + destruct (Map_set_keys_invariant (WMS.name c) d m Hnd) as (H1 & H2 & H3).
      destruct (IH _ H1) as (I1 & I2 & I3).
      split; [exact I1 |]. split; [eapply incl_tran; eassumption |].
      intros x Hx. apply I3 in Hx. apply in_app_or in Hx as [Hx | Hx].
      * apply H3 in Hx. apply in_app_or in Hx as [Hx | [<- | []]].
        -- apply in_or_app. left. exact Hx.
        -- apply in_or_app. right. left. reflexivity.
      * apply in_or_app. right. right. exact Hx.
    + destruct (IH _ Hnd) as (I1 & I2 & I3).
      split; [exact I1 |]. split; [exact I2 |].
      intros x Hx. apply I3 in Hx. apply in_app_or in Hx as [Hx | Hx].
      * apply in_or_app. left. exact Hx.
      * apply in_or_app. right. right. exact Hx.
Qed.

(** X13.  [updateAllCities] keeps the store well formed and never removes
    an entry: from a store with distinct keys, all of them names of
    configured cities (the empty store the constructor makes is one), it
    gives a store with distinct keys, all of them names of configured cities,
    holding every key it held before; so the store grows, to at most 20
    entries. *)
Theorem refresh_keeps_store_well_formed
  (fetched : WMS.city -> option WMS.cityData) (currentData : WMS.Map) :
  NoDup (WMS.Map_keys currentData) ->
  incl (WMS.Map_keys currentData) (map WMS.name WMS.cities) ->
  let updated := WMS.updateAllCities fetched WMS.cities currentData in
  NoDup (WMS.Map_keys updated)
  /\ incl (WMS.Map_keys updated) (map WMS.name WMS.cities)
  /\ incl (WMS.Map_keys currentData) (WMS.Map_keys updated)
  /\ (WMS.Map_size currentData <= WMS.Map_size updated <= 20)%nat.
Proof.
  intros Hnd Hincl updated.
  destruct (updateAllCities_keys_invariant fetched WMS.cities currentData Hnd)
    as (H1 & H2 & H3).
  fold updated in H1, H2, H3.
  assert (H4 : incl (WMS.Map_keys updated) (map WMS.name WMS.cities)).
  { intros x Hx. apply H3 in Hx. apply in_app_or in Hx as [Hx | Hx];
      [apply Hincl; exact Hx | exact Hx]. }
  split; [exact H1 |]. split; [exact H4 |]. split; [exact H2 |].
  assert (Es : forall m, WMS.Map_size m = length (WMS.Map_keys m)).
  { intros m. unfold WMS.Map_size, WMS.Map_keys. symmetry. apply length_map. }
  rewrite !Es. split.
  - apply NoDup_incl_length; assumption.
  - pose proof (NoDup_incl_length H1 H4) as Hle.
    rewrite length_map, cities_length in Hle. exact Hle.
Qed.

Lemma refresh_keeps_store_well_formed_witness :
  NoDup (WMS.Map_keys
           (WMS.updateAllCities (fun _ => Some phoenix_hot_dry) WMS.cities []))
  /\ incl
       (WMS.Map_keys
          (WMS.updateAllCities (fun _ => Some phoenix_hot_dry) WMS.cities []))
       (map WMS.name WMS.cities)
  /\ incl (WMS.Map_keys [])
       (WMS.Map_keys
          (WMS.updateAllCities (fun _ => Some phoenix_hot_dry) WMS.cities []))
  /\ (WMS.Map_size []
      <= WMS.Map_size
           (WMS.updateAllCities (fun _ => Some phoenix_hot_dry) WMS.cities [])
      <= 20)%nat.
Proof.
  apply (refresh_keeps_store_well_formed (fun _ => Some phoenix_hot_dry) []).
  - constructor.
  - intros x [].
Defined.

End Store.

(** ** The ticker and the crisis cards *)

Section Rotation.

Import ListNotations.
Local Open Scope list_scope.
Local Open Scope nat_scope.

Lemma map_nth_seq {A : Type} (l : list A) (d : A) :
  map (fun i => nth i l d) (seq 0 (length l)) = l.
Proof.
  induction l as [| x l IH]; [reflexivity |].
  cbn [length seq map nth]. f_equal.
  rewrite <- seq_shift, map_map. exact IH.
Qed.

Lemma shift_mod_injective (n i j1 j2 : nat) :
  j1 < n -> j2 < n -> (i + j1) mod n = (i + j2) mod n -> j1 = j2.
Proof.
  intros H1 H2 E.
  assert (Hn : n <> 0) by lia.
  pose proof (Nat.div_mod_eq (i + j1) n) as D1.
  pose proof (Nat.div_mod_eq (i + j2) n) as D2.
  pose proof (Nat.mod_upper_bound (i + j1) n Hn) as B1.
  rewrite E in D1.
  assert (Hq : (i + j1) / n = (i + j2) / n) by nia.
  rewrite Hq in D1. lia.
Qed.

Lemma shift_mod_permutation (n i : nat) :
  Permutation (map (fun j => (i + j) mod n) (seq 0 n)) (seq 0 n).
Proof.
  destruct n as [| n]; [constructor |].
  apply Permutation_map_same_l.
  - apply Finite.Injective_map_NoDup_in; [| apply seq_NoDup].
    intros x y Hx Hy. apply in_seq in Hx, Hy.
    apply shift_mod_injective; lia.
  - intros x Hx. apply in_map_iff in Hx as [j [<- Hj]].
    apply in_seq. split; [lia |].
    apply Nat.mod_upper_bound. discriminate.
Qed.

Lemma rotation_permutation {A : Type} (l : list A) (d : A) (i : nat) :
  Permutation
    (map (fun j => nth ((i + j) mod length l) l d) (seq 0 (length l))) l.
Proof.
  pose proof (Permutation_map (fun x => nth x l d)
                (shift_mod_permutation (length l) i)) as H.
  rewrite map_map, map_nth_seq in H. exact H.
Qed.

Lemma updateTicker_shows
  (m : WMS.Map) (c0 : WMS.cityData) (rest : list WMS.cityData) (i : nat) :
  WMS.Map_values m = c0 :: rest ->
  WMS.updateTicker true m i
  = (Some (nth (i mod length (WMS.Map_values m)) (WMS.Map_values m) c0), S i).
Proof.
  intros E. unfold WMS.updateTicker. cbn [negb]. cbv zeta.
  rewrite E. reflexivity.
Qed.

Lemma tickerRun_map
  (m : WMS.Map) (c0 : WMS.cityData) (rest : list WMS.cityData) :
  WMS.Map_values m = c0 :: rest ->
  forall calls i,
    WMS.tickerRun calls m i
    = map (fun j => nth ((i + j) mod length (WMS.Map_values m))
                      (WMS.Map_values m) c0)
        (seq 0 calls).
Proof.
  intros E calls. induction calls as [| calls IH]; intros i; [reflexivity |].
  cbn [WMS.tickerRun]. rewrite (updateTicker_shows m c0 rest i E).
  cbn [seq map]. rewrite Nat.add_0_r. f_equal.
  rewrite IH, <- seq_shift, map_map.
  apply map_ext. intros j. rewrite Nat.add_succ_comm. reflexivity.
Qed.

(** X14.  [updateTicker] never reads past the end of the store: with a
    non-empty store it shows one of the stored cities and advances
    [tickerIndex] by one.  As many successive calls as the store has cities
    show every stored city exactly once, from whatever [tickerIndex] they
    start.  Without the ticker element, or with an empty store, nothing is
    shown and [tickerIndex] stays. *)
Theorem ticker_round_robin (currentData : WMS.Map) (tickerIndex : nat) :
  (currentData <> [] ->
   exists c : WMS.cityData,
     WMS.updateTicker true currentData tickerIndex = (Some c, S tickerIndex)
     /\ In c (WMS.Map_values currentData))
  /\ Permutation
       (WMS.tickerRun (WMS.Map_size currentData) currentData tickerIndex)
       (WMS.Map_values currentData)
  /\ WMS.updateTicker false currentData tickerIndex = (None, tickerIndex)
  /\ WMS.updateTicker true [] tickerIndex = (None, tickerIndex).
Proof.
  split; [| split; [| split; reflexivity]].
  - intros Hne.
    destruct currentData as [| [k v] m]; [congruence |].
    pose proof (eq_refl : WMS.Map_values ((k, v) :: m)
                          = v :: WMS.Map_values m) as E.
    eexists. split.
    + apply (updateTicker_shows _ _ _ _ E).
    + apply nth_In. apply Nat.mod_upper_bound. discriminate.
  - destruct currentData as [| [k v] m]; [constructor |].
    pose proof (eq_refl : WMS.Map_values ((k, v) :: m)
                          = v :: WMS.Map_values m) as E.
    rewrite (tickerRun_map _ _ _ E).
    replace (WMS.Map_size ((k, v) :: m))
      with (length (WMS.Map_values ((k, v) :: m)))
      by (unfold WMS.Map_values, WMS.Map_size; apply length_map).
    apply rotation_permutation.
Qed.

End Rotation.

Section Cards.

Import ListNotations.
Local Open Scope list_scope.









End Cards.

(** ** More on the scoring formula *)

Section Monotonicity.

Lemma aridity_of_ratio_range (x : R) : 0 <= Spec.aridity_of_ratio x <= 40.
Proof. unfold Spec.aridity_of_ratio. decide_reals; lra. Qed.

Lemma aridity_of_ratio_antitone (x y : R) :
  x <= y -> Spec.aridity_of_ratio y <= Spec.aridity_of_ratio x.
Proof. intros H. unfold Spec.aridity_of_ratio. decide_reals; lra. Qed.

Lemma aridity_of_ratio_low (x : R) : x < 0.05 -> Spec.aridity_of_ratio x = 40.
Proof. intros H. unfold Spec.aridity_of_ratio. decide_reals; lra. Qed.

Lemma aridity_range (p t : R) : 0 <= Spec.aridity p t <= 40.
Proof.
  unfold Spec.aridity.
  destruct (Rlt_dec 0 p); [destruct (Req_dec_T (Spec.PET t) 0) |];
    try apply aridity_of_ratio_range; lra.
Qed.

Lemma ratio_negative (p pet : R) : 0 < p -> pet < 0 -> p / pet < 0.
Proof.
  intros Hp Hpet. unfold Rdiv. pose proof (Rinv_neg _ Hpet). nra.
Qed.

Lemma ratio_monotone (p1 p2 pet : R) :
  0 < pet -> p1 <= p2 -> p1 / pet <= p2 / pet.
Proof.
  intros Hpet H. unfold Rdiv. pose proof (Rinv_0_lt_compat _ Hpet). nra.
Qed.

Lemma aridity_antitone (p1 p2 t : R) :
  p1 <= p2 -> Spec.aridity p2 t <= Spec.aridity p1 t.
Proof.
  intros H. pose proof (aridity_range p2 t) as Hr2. unfold Spec.aridity in *.
  destruct (Rlt_dec 0 p1) as [H1 | H1]; destruct (Rlt_dec 0 p2) as [H2 | H2];
    try lra.
  - destruct (Req_dec_T (Spec.PET t) 0) as [E | E]; [lra |].
    destruct (Rlt_dec 0 (Spec.PET t)) as [Hpos | Hneg].
    + apply aridity_of_ratio_antitone, ratio_monotone; assumption.
    + assert (Hpet : Spec.PET t < 0) by lra.
      rewrite !aridity_of_ratio_low; [lra | |];
        (eapply Rlt_trans; [apply ratio_negative; eassumption | lra]).
  - rewrite (aridity_of_ratio_low 0) by lra. lra.
Qed.

Lemma availability_monotone (p1 p2 pop : R) :
  0 < pop -> p1 <= p2 ->
  Spec.per_capita_availability p1 pop <= Spec.per_capita_availability p2 pop.
Proof.
  intros Hpop H. unfold Spec.per_capita_availability.
  apply ratio_monotone; [lra |].
  pose proof (sqrt_pos (pop * 10)). nra.
Qed.

Lemma per_capita_antitone (p1 p2 pop : R) :
  0 < pop -> p1 <= p2 -> Spec.per_capita p2 pop <= Spec.per_capita p1 pop.
Proof.
  intros Hpop H. pose proof (availability_monotone p1 p2 pop Hpop H).
  unfold Spec.per_capita. cbv zeta. decide_reals; lra.
Qed.

(** X17.  More precipitation never raises the index: for every
    temperature and humidity and every population > 0 that is at most
    10^300, the index at a precipitation [p2] is at most the index at any
    smaller precipitation [p1].  The bound keeps [population * 1000000]
    finite: past it the per-capita quotient of the program can be
    [Infinity / Infinity], which no threshold test accepts. *)
Theorem index_antitone_in_precipitation (p1 p2 t h pop : R) :
  0 < pop <= 10 ^ 300 ->
  p1 <= p2 ->
  exists i1 i2 : R,
    calculateWaterStressIndex (Fin p1) (Fin t) (Fin h) (Fin pop) = Fin i1
    /\ calculateWaterStressIndex (Fin p2) (Fin t) (Fin h) (Fin pop) = Fin i2
    /\ i2 <= i1.
Proof.
  intros [Hpop _] H.
  exists (Spec.index p1 t h pop), (Spec.index p2 t h pop).
  rewrite !calculateWaterStressIndex_spec by exact Hpop.
  split; [reflexivity |]. split; [reflexivity |].
  unfold Spec.index. apply clamp_mono; [lra |].
  pose proof (aridity_antitone p1 p2 t H).
  pose proof (per_capita_antitone p1 p2 pop Hpop H). lra.
Qed.

Lemma index_antitone_in_precipitation_witness :
  exists i1 i2 : R,
    calculateWaterStressIndex (Fin 0) (Fin 20) (Fin 70) (Fin 5) = Fin i1
    /\ calculateWaterStressIndex (Fin 50) (Fin 20) (Fin 70) (Fin 5) = Fin i2
    /\ i2 <= i1.
Proof.
  apply (index_antitone_in_precipitation 0 50 20 70 5); lra.
Defined.

(** X18.  More humidity never raises the index: for every precipitation,
    temperature and population, finite or not, the index at a humidity [h2]
    is at most the index at any smaller humidity [h1]. *)
Theorem index_antitone_in_humidity
  (precipitation population : number) (t h1 h2 : R) :
  h1 <= h2 ->
  exists i1 i2 : R,
    calculateWaterStressIndex precipitation (Fin t) (Fin h1) population = Fin i1
    /\ calculateWaterStressIndex precipitation (Fin t) (Fin h2) population
       = Fin i2
    /\ i2 <= i1.
Proof.
  intros H. rewrite !calculateWaterStressIndex_Fin.
  eexists. eexists. split; [reflexivity |]. split; [reflexivity |].
  apply clamp_mono; [lra |].
  pose proof (clamp_mono ((60 - h2) * 2) ((60 - h1) * 2) 0 100
                ltac:(lra) ltac:(lra)).
  lra.
Qed.

Lemma index_antitone_in_humidity_witness :
  exists i1 i2 : R,
    calculateWaterStressIndex NaN (Fin 20) (Fin 10) (Fin 5) = Fin i1
    /\ calculateWaterStressIndex NaN (Fin 20) (Fin 70) (Fin 5) = Fin i2
    /\ i2 <= i1.
Proof.
  apply (index_antitone_in_humidity NaN (Fin 5) 20 10 70); lra.
Defined.

Lemma sqrt_le_self (x : R) : 1 <= x -> sqrt x <= x.
Proof.
  intros H. rewrite <- (sqrt_square x) at 2 by lra.
  apply sqrt_le_1_alt. nra.
Qed.

Lemma availability_small (p pop : R) :
  0.1 <= pop -> p < 50000 -> Spec.per_capita_availability p pop < 500.
Proof.
  intros Hpop Hp. unfold Spec.per_capita_availability.
  apply div_upper; [lra |].
  pose proof (sqrt_pos (pop * 10)) as H0.
  pose proof (sqrt_le_self (pop * 10) ltac:(lra)) as H1.
  destruct (Rle_dec p 0) as [Hn | Hn]; nra.
Qed.

End Monotonicity.

(** ** The formula in binary64 *)

(** The reference formula over the reals at the exact value of the binary64
    number written [0.24656], which is 8883260192995756 / 2^55 and lies just
    above 0.24656: the ratio to [PET = 1.2328] is at least 0.2, so the aridity
    contribution is 20. *)
Lemma spec_index_at_threshold :
  Spec.index (8883260192995756 / 36028797018963968) 9 60 5 = 50.
Proof.
  assert (Epet : Spec.PET 9 = 1.2328).
  { unfold Spec.PET. replace (25 - 9) with (4 * 4) by lra.
    rewrite Rabs_pos_eq by lra. rewrite sqrt_square by lra. lra. }
  assert (Ha : 7 < sqrt (5 * 10) < 8) by (apply sqrt_between; lra).
  assert (Hpc : Spec.per_capita_availability
                  (8883260192995756 / 36028797018963968) 5 < 500).
  { unfold Spec.per_capita_availability. apply div_upper; lra. }
  assert (Et : Spec.clamp ((9 - 15) * 3) 0 100 = 0).
  { unfold Spec.clamp. rewrite Rmin_right by lra. rewrite Rmax_left by lra.
    reflexivity. }
  assert (Eh : Spec.clamp ((60 - 60) * 2) 0 100 = 0) by (rewrite clamp_id; lra).
  unfold Spec.index, Spec.aridity, Spec.aridity_of_ratio, Spec.per_capita,
    Spec.temperature_stress, Spec.humidity.
  cbv zeta. rewrite Epet, Et, Eh.
  decide_reals.
  rewrite clamp_id by lra. lra.
Qed.

Section Binary64.

Import PrimFloat SpecFloat FloatOps FloatAxioms.
Import ListNotations.
Local Open Scope list_scope.
Local Set Warnings "-inexact-float".

Ltac float_value_of x :=
  unfold float_value;
  let v := eval vm_compute in (Prim2SF x) in
  replace (Prim2SF x) with v by (vm_compute; reflexivity);
  cbv beta iota zeta;
  repeat match goal with
    | |- context [Z.pow_pos 2 ?k] =>
        let w := eval vm_compute in (Z.pow_pos 2 k) in
        change (Z.pow_pos 2 k) with w
    end;
  f_equal; lra.

Lemma float_value_threshold_input :
  float_value 0.24656%float = Fin (8883260192995756 / 36028797018963968).
Proof. float_value_of 0.24656%float. Qed.

Lemma float_value_9 : float_value 9%float = Fin 9.
Proof. float_value_of 9%float. Qed.

Lemma float_value_60 : float_value 60%float = Fin 60.
Proof. float_value_of 60%float. Qed.

Lemma float_value_5 : float_value 5%float = Fin 5.
Proof. float_value_of 5%float. Qed.

Lemma code_at_threshold :
  Float64.calculateWaterStressIndex 0.24656 9 60 5 = 60%float
  /\ Float64.aridityIndex 0.24656 9 = 0.19999999999999998%float.
Proof. split; vm_compute; reflexivity. Qed.

(** The claim C1 as stated fails on the program.  At precipitation 0.24656
    (the binary64 number of that name), temperature 9, humidity 60 and
    population 5, all in the claim's domain, the program returns 60: its
    quotient precipitation / PET is the binary64 number just below 0.2, and
    the aridity chain adds 30.  The reference formula over the reals, at the
    exact values of the same four numbers, is 50: the exact ratio is not below
    0.2 and the aridity contribution is 20. *)
Lemma reference_formula_over_reals_not_met :
  float_value 0.24656%float = Fin (8883260192995756 / 36028797018963968)
  /\ float_value 9%float = Fin 9
  /\ float_value 60%float = Fin 60
  /\ float_value 5%float = Fin 5
  /\ 0 <= 8883260192995756 / 36028797018963968
  /\ float_value (Float64.calculateWaterStressIndex 0.24656 9 60 5) = Fin 60
  /\ Fin (Spec.index (8883260192995756 / 36028797018963968) 9 60 5) = Fin 50
  /\ float_value (Float64.calculateWaterStressIndex 0.24656 9 60 5)
     <> Fin (Spec.index (8883260192995756 / 36028797018963968) 9 60 5).
Proof.
  rewrite (proj1 code_at_threshold), spec_index_at_threshold.
  split; [exact float_value_threshold_input |].
  split; [exact float_value_9 |].
  split; [exact float_value_60 |].
  split; [exact float_value_5 |].
  split; [lra |].
  split; [exact float_value_60 |].
  split; [reflexivity |].
  rewrite float_value_60. intros E. injection E as E. lra.
Qed.

(** Facts of binary64 arithmetic, from the specification of the
    primitive operations. *)
Lemma binary_round_aux_sign (m e : Z) (l : location) :
  nonneg_or_nan (binary_round_aux prec emax false m e l).
Proof.
  unfold binary_round_aux.
  destruct (shr_fexp prec emax m e l) as [mrs' e'].
  destruct (shr_fexp prec emax _ e' loc_Exact) as [mrs'' e''].
  destruct (shr_m mrs''); [reflexivity | | exact I].
  destruct (Z.leb e'' (emax - prec)); reflexivity.
Qed.

Lemma Prim2SF_0 : Prim2SF 0 = S754_zero false.
Proof. vm_compute. reflexivity. Qed.

Lemma Prim2SF_10 : exists m e, Prim2SF 10 = S754_finite false m e.
Proof. eexists. eexists. vm_compute. reflexivity. Qed.

Lemma Prim2SF_100 : exists m e, Prim2SF 100 = S754_finite false m e.
Proof. eexists. eexists. vm_compute. reflexivity. Qed.

Lemma positive_spec (x : float) :
  (0 <? x)%float = true ->
  Prim2SF x = S754_infinity false
  \/ exists m e, Prim2SF x = S754_finite false m e.
Proof.
  rewrite ltb_spec, Prim2SF_0.
  destruct (Prim2SF x) as [s | s | | s m e]; cbn; try discriminate;
    destruct s; try discriminate; eauto.
Qed.

Lemma times_10_nonneg (pop : float) :
  (0 <? pop)%float = true -> nonneg_or_nan (Prim2SF (pop * 10)%float).
Proof.
  intros H. rewrite mul_spec.
  destruct Prim2SF_10 as (m10 & e10 & E10). rewrite E10.
  destruct (positive_spec pop H) as [E | (m & e & E)]; rewrite E.
  - reflexivity.
  - unfold SF64mul, SFmul. cbn [xorb]. apply binary_round_aux_sign.
Qed.

Lemma from_spec (x : float) (y : spec_float) : Prim2SF x = y -> x = SF2Prim y.
Proof. intros <-. symmetry. apply SF2Prim_Prim2SF. Qed.

Lemma SFeqb_finite_refl (s : bool) (m : positive) (e : Z) :
  SFeqb (S754_finite s m e) (S754_finite s m e) = true.
Proof.
  unfold SFeqb, SFcompare. rewrite Z.compare_refl, Pos.compare_cont_refl.
  destruct s; reflexivity.
Qed.

Lemma is_nan_finite (x : float) (s : bool) (m : positive) (e : Z) :
  Prim2SF x = S754_finite s m e -> Float64.is_nan x = false.
Proof.
  intros H. unfold Float64.is_nan. rewrite eqb_spec, H, SFeqb_finite_refl.
  reflexivity.
Qed.

(** [Math.pow(x, 0.5)] is the square root except at [-0] and [-Infinity]. *)
Lemma pow_half_is_sqrt (x : float) :
  nonneg_or_nan (Prim2SF x) -> Float64.Math_pow_0_5 x = sqrt x.
Proof.
  intros H. destruct (Prim2SF x) as [s | s | | s m e] eqn:E; cbn in H;
    try subst s.
  - apply from_spec in E. subst x. vm_compute. reflexivity.
  - apply from_spec in E. subst x. vm_compute. reflexivity.
  - apply from_spec in E. subst x. vm_compute. reflexivity.
  - unfold Float64.Math_pow_0_5. rewrite (is_nan_finite x _ _ _ E).
    assert (Ei : Float64.is_infinite x = false).
    { unfold Float64.is_infinite. rewrite eqb_spec, abs_spec, E.
      vm_compute. reflexivity. }
    rewrite Ei. f_equal. apply Prim2SF_inj.
    rewrite add_spec, E, Prim2SF_0. reflexivity.
Qed.

Lemma Math_max_0_negative (s : float) (m : positive) (e : Z) :
  Prim2SF s = S754_finite true m e -> Float64.Math_max 0 s = 0%float.
Proof.
  intros E. unfold Float64.Math_max.
  rewrite (is_nan_finite s _ _ _ E). cbn [Float64.is_nan orb].
  rewrite !ltb_spec, E, Prim2SF_0. reflexivity.
Qed.

Lemma Math_max_0_positive (s : float) (m : positive) (e : Z) :
  Prim2SF s = S754_finite false m e -> Float64.Math_max 0 s = s.
Proof.
  intros E. unfold Float64.Math_max.
  rewrite (is_nan_finite s _ _ _ E).
  rewrite !ltb_spec, E, Prim2SF_0. reflexivity.
Qed.

Lemma Math_min_100_negative (s : float) (m : positive) (e : Z) :
  Prim2SF s = S754_finite true m e -> Float64.Math_min 100 s = s.
Proof.
  intros E. unfold Float64.Math_min.
  rewrite (is_nan_finite s _ _ _ E).
  destruct Prim2SF_100 as (m' & e' & E').
  rewrite !ltb_spec, E, E'. reflexivity.
Qed.

(** [Math.min(100, Math.max(0, s))] and [Math.max(0, Math.min(100, s))] are
    the same binary64 number, whatever [s] is. *)
Lemma clamp_either_nesting (s : float) :
  Float64.Math_min 100 (Float64.Math_max 0 s)
  = Float64.Math_max 0 (Float64.Math_min 100 s).
Proof.
  destruct (Prim2SF s) as [sg | sg | | sg m e] eqn:E.
  - apply from_spec in E. subst s. destruct sg; vm_compute; reflexivity.
  - apply from_spec in E. subst s. destruct sg; vm_compute; reflexivity.
  - apply from_spec in E. subst s. vm_compute. reflexivity.
  - destruct sg.
    + rewrite (Math_max_0_negative s m e E), (Math_min_100_negative s m e E).
      rewrite (Math_max_0_negative s m e E). vm_compute. reflexivity.
    + rewrite (Math_max_0_positive s m e E).
      unfold Float64.Math_min at 2. rewrite (is_nan_finite s _ _ _ E).
      unfold Float64.Math_min. rewrite (is_nan_finite s _ _ _ E).
      change (Float64.is_nan 100 || false)%bool with false. cbv iota.
      destruct (100 <? s)%float; [vm_compute; reflexivity |].
      destruct (s <? 100)%float;
        [symmetry; apply (Math_max_0_positive s m e E) |].
      vm_compute. reflexivity.
Qed.

Lemma per_capita_availability_agrees (p pop : float) :
  (0 <? pop)%float = true ->
  Float64.perCapitaWater p pop = Float64Spec.per_capita_availability p pop.
Proof.
  intros Hpop.
  unfold Float64.perCapitaWater, Float64.waterAvailable, Float64.areaKm2,
    Float64Spec.per_capita_availability, Float64Spec.waterVolume,
    Float64Spec.area_km2.
  rewrite (pow_half_is_sqrt _ (times_10_nonneg pop Hpop)). reflexivity.
Qed.

Lemma code_is_reference_binary64 (p t h pop : float) :
  (0 <? pop)%float = true ->
  Float64.calculateWaterStressIndex p t h pop = Float64Spec.index p t h pop.
Proof.
  intros Hpop.
  unfold Float64.calculateWaterStressIndex, Float64Spec.index,
    Float64Spec.clamp.
  cbv zeta. rewrite clamp_either_nesting. do 2 f_equal.
  unfold Float64.stressIndexBeforeClamp. cbv zeta.
  unfold Float64.humidityStep, Float64.tempStep, Float64.perCapitaStep,
    Float64.aridityStep, Float64Spec.aridity, Float64Spec.per_capita,
    Float64Spec.temperature_stress, Float64Spec.humidity, Float64Spec.clamp.
  cbv zeta.
  rewrite (per_capita_availability_agrees p pop Hpop).
  change (Float64.aridityIndex p t) with (Float64Spec.AI p t).
  unfold Float64.tempStress, Float64.humidityFactor.
  repeat match goal with
    | |- context [if ?b then _ else _] => destruct b
    end;
    reflexivity.
Qed.

(** C1 (amended).  For every binary64 precipitation, temperature and
    humidity and every binary64 population > 0, [calculateWaterStressIndex]
    is the reference formula with each operation carried out in binary64, in
    the order written: the aridity contribution by the thresholds
    0.05/0.20/0.50/0.65 on the quotient precipitation / PET (0 when
    precipitation is not > 0), plus the per-capita contribution by the
    thresholds 500/1000/1700, plus [clamp((T - 15) * 3, 0, 100) * 0.2], plus
    [clamp((60 - H) * 2, 0, 100) * 0.1], clamped to [[0,100]]. *)
Theorem calculateWaterStressIndex_reference_binary64
  (precipitation temperature humidity population : float) :
  (0 <=? precipitation)%float = true ->
  (0 <=? humidity)%float = true ->
  (humidity <=? 100)%float = true ->
  (0 <? population)%float = true ->
  Float64.calculateWaterStressIndex precipitation temperature humidity
    population
  = Float64Spec.index precipitation temperature humidity population.
Proof.
  intros _ _ _ Hpop. apply code_is_reference_binary64. exact Hpop.
Qed.

Lemma calculateWaterStressIndex_reference_binary64_witness :
  Float64.calculateWaterStressIndex 0.24656 9 60 5
  = Float64Spec.index 0.24656 9 60 5.
Proof.
  apply (calculateWaterStressIndex_reference_binary64 0.24656 9 60 5);
    reflexivity.
Defined.

(** X16.  Every population of [this.cities] is a binary64 number above
    zero, so for each configured city and any binary64 precipitation,
    temperature and humidity, the index the program computes is the
    reference formula in binary64. *)
Theorem configured_city_scored_by_reference :
  length Float64Cities.populations = 20%nat
  /\ Forall (fun pop => (0 <? pop)%float = true) Float64Cities.populations
  /\ forall pop : float,
       In pop Float64Cities.populations ->
       forall p t h : float,
         Float64.calculateWaterStressIndex p t h pop
         = Float64Spec.index p t h pop.
Proof.
  assert (Hpos : Forall (fun pop => (0 <? pop)%float = true)
                   Float64Cities.populations).
  { unfold Float64Cities.populations. repeat constructor. }
  split; [reflexivity |]. split; [exact Hpos |].
  intros pop Hin p t h. apply code_is_reference_binary64.
  rewrite Forall_forall in Hpos. apply Hpos. exact Hin.
Qed.

(** X2.  When every value of the three NASA series is the sentinel -999
    (or the series is missing), [fetchCityData] does not fall back to
    Open-Meteo: it scores the city from zeros, and for every city of
    [this.cities] the index is 80, shown as 80.0, with severity critical.  On
    binary64 the program gives the float 80 and critical at each of the
    twenty configured populations. *)
Theorem nasa_no_data_is_critical
  (c : WMS.city) (params : WMS.nasaParameter)
  (openMeteo : option WMS.reading) (now clock : string) :
  In c WMS.cities ->
  WMS.valid (WMS.values_or_empty (WMS.PRECTOTCORR params)) = [] ->
  WMS.valid (WMS.values_or_empty (WMS.T2M params)) = [] ->
  WMS.valid (WMS.values_or_empty (WMS.RH2M params)) = [] ->
  (exists result : WMS.cityData,
      WMS.fetchCityData c (WMS.fetchNASAPowerData (Some params) now)
        openMeteo clock
      = Some result
      /\ WMS.source (WMS.dataOf result) = "NASA POWER"%string
      /\ WMS.stressIndexOf c (WMS.dataOf result) = Fin 80
      /\ WMS.parseFloat (WMS.waterStress result) = Fin 80
      /\ WMS.severity result = "critical"%string)
  /\ Forall
       (fun pop =>
          Float64.calculateWaterStressIndex 0 0 0 pop = 80%float
          /\ level (Float64.getSeverityLevel
                      (Float64.calculateWaterStressIndex 0 0 0 pop))
             = "critical"%string)
       Float64Cities.populations.
Proof.
  intros Hin Ep Et Eh.
  assert (Hpop : 0 < WMS.population c).
  { pose proof cities_population_positive as Hpos.
    rewrite Forall_forall in Hpos. apply Hpos. exact Hin. }
  split.
  - unfold WMS.fetchNASAPowerData. cbv zeta. rewrite Ep, Et, Eh.
    cbn [WMS.averageOrZero WMS.fetchCityData]. cbv zeta.
    eexists. split; [reflexivity |].
    cbn [WMS.dataOf WMS.source WMS.waterStress WMS.severity WMS.parseFloat].
    unfold WMS.stressIndexOf.
    cbn [WMS.precipitation WMS.temperature WMS.humidity WMS.parseFloat].
    rewrite (index_no_data _ Hpop).
    split; [reflexivity |]. split; [reflexivity |].
    split; [apply toFixed_80 |].
    rewrite getSeverityLevel_Fin. decide_reals; reflexivity.
  - unfold Float64Cities.populations.
    repeat (constructor; [split; vm_compute; reflexivity |]).
    constructor.
Qed.

Lemma nasa_no_data_is_critical_witness :
  (exists result : WMS.cityData,
      WMS.fetchCityData phoenix
        (WMS.fetchNASAPowerData
           (Some {| WMS.PRECTOTCORR := Some [Fin (-999)];
                    WMS.T2M := None;
                    WMS.RH2M := Some [] |})
           "2024-06-01T00:00:00.000Z")
        None "12:00:00 AM"
      = Some result
      /\ WMS.source (WMS.dataOf result) = "NASA POWER"%string
      /\ WMS.stressIndexOf phoenix (WMS.dataOf result) = Fin 80
      /\ WMS.parseFloat (WMS.waterStress result) = Fin 80
      /\ WMS.severity result = "critical"%string)
  /\ Forall
       (fun pop =>
          Float64.calculateWaterStressIndex 0 0 0 pop = 80%float
          /\ level (Float64.getSeverityLevel
                      (Float64.calculateWaterStressIndex 0 0 0 pop))
             = "critical"%string)
       Float64Cities.populations.
Proof.
  apply (nasa_no_data_is_critical phoenix
           {| WMS.PRECTOTCORR := Some [Fin (-999)];
              WMS.T2M := None;
              WMS.RH2M := Some [] |}).
  - exact phoenix_configured.
  - exact valid_sentinel_only.
  - reflexivity.
  - reflexivity.
Defined.

(** X19.  The per-capita chain is constant in practice: for a population
    between 0.1 and 1000000 (million) and a precipitation of at most 10000
    (mm per day) the estimated per-capita water is below 500, so the chain
    adds its maximum, 30.  The index is then at least 30 and the severity is
    never low.  Every city of [this.cities] has such a population; on
    binary64, at each configured population the estimate at precipitation
    10000 is below 500. *)
Theorem per_capita_always_scarce (p t h pop : R) :
  0.1 <= pop <= 1000000 ->
  p <= 10000 ->
  perCapitaPoints (perCapitaWater (Fin p) (Fin pop)) = 30
  /\ (exists index : R,
         calculateWaterStressIndex (Fin p) (Fin t) (Fin h) (Fin pop) = Fin index
         /\ 30 <= index <= 100)
  /\ level (getSeverityLevel
              (calculateWaterStressIndex (Fin p) (Fin t) (Fin h) (Fin pop)))
     <> "low"%string
  /\ Forall (fun c => 0.1 <= WMS.population c <= 1000000) WMS.cities
  /\ Forall (fun pop => (Float64.perCapitaWater 10000 pop <? 500)%float = true)
       Float64Cities.populations.
Proof.
  intros [Hpop _] Hp.
  assert (E : perCapitaPoints (perCapitaWater (Fin p) (Fin pop)) = 30).
  { rewrite per_capita_agrees by lra.
    pose proof (availability_small p pop Hpop ltac:(lra)).
    unfold Spec.per_capita. cbv zeta. decide_reals; reflexivity. }
  assert (Hi : exists index : R,
             calculateWaterStressIndex (Fin p) (Fin t) (Fin h) (Fin pop)
             = Fin index
             /\ 30 <= index <= 100).
  { rewrite calculateWaterStressIndex_Fin, E.
    eexists. split; [reflexivity |].
    pose proof (aridityPoints_range (aridityIndex (Fin p) (Fin t))).
    pose proof (clamp_range ((t - 15) * 3) 0 100 ltac:(lra)).
    pose proof (clamp_range ((60 - h) * 2) 0 100 ltac:(lra)).
    rewrite clamp_id; lra. }
  split; [exact E |]. split; [exact Hi |]. split; [| split].
  - destruct Hi as [index [Ei Hr]]. rewrite Ei, getSeverityLevel_Fin.
    decide_reals; discriminate.
  - unfold WMS.cities. repeat constructor; cbn [WMS.population]; lra.
  - unfold Float64Cities.populations.
    repeat (constructor; [vm_compute; reflexivity |]).
    constructor.
Qed.

Lemma per_capita_always_scarce_witness :
  perCapitaPoints (perCapitaWater (Fin 2000) (Fin 3.3)) = 30
  /\ (exists index : R,
         calculateWaterStressIndex (Fin 2000) (Fin 10) (Fin 90) (Fin 3.3)
         = Fin index
         /\ 30 <= index <= 100)
  /\ level (getSeverityLevel
              (calculateWaterStressIndex (Fin 2000) (Fin 10) (Fin 90) (Fin 3.3)))
     <> "low"%string
  /\ Forall (fun c => 0.1 <= WMS.population c <= 1000000) WMS.cities
  /\ Forall (fun pop => (Float64.perCapitaWater 10000 pop <? 500)%float = true)
       Float64Cities.populations.
Proof.
  apply (per_capita_always_scarce 2000 10 90 3.3); lra.
Defined.

End Binary64.
